(** * Guest sustainability display (guest_display.py): shallow embedding

    The module [guest_display.py] loads four CSV files into pandas
    DataFrames ([load_data]) and derives per-guest metrics for one hotel
    ([calculate_guest_impact]); [show_guest_display] renders them.

    Modelling choices:
    - a pandas float cell is [option Q]: [None] is NaN, [Some q] a number.
      Float rounding is not modelled: sums and means are exact rationals
      (so, unlike float64 sums, they do not depend on the order of the
      rows), and the constants 0.233 and 0.50 are exact; the statements
      below are about these exact values;
    - a pandas Timestamp cell is [option date]: [None] is NaT; the range
      of representable Timestamps depends on the pandas version and is a
      parameter [ts_ok] of the definitions that parse or shift dates;
    - a Python exception caught by the surrounding [try] is [Err msg] of
      the [result] monad; the one uncaught exception of the page (from
      [st.progress]) is a page of its own;
    - the CSV files have the columns the module reads (Month, Hotel,
      Recycling Rates, Food Waste; Month and one column per hotel; Month,
      Hotel, Sleepers, Occupancy Rate); Hotel cells are non-empty names and
      the usage, Sleepers, Recycling Rates and Food Waste columns hold
      numbers; the image directories can be created. *)

From Stdlib Require Import ZArith QArith Qminmax Lqa String Ascii List Bool Lia
  Sorting.Sorted Permutation.
Import ListNotations.
Open Scope Z_scope.

(** ** Results: values or a raised (and reported) exception *)

Inductive result (A : Type) : Type :=
| Ok (a : A)
| Err (msg : string).
Arguments Ok {A} a.
Arguments Err {A} msg.

Definition bind {A B : Type} (r : result A) (k : A -> result B) : result B :=
  match r with
  | Ok a => k a
  | Err m => Err m
  end.

Notation "x <- r ;; k" := (bind r (fun x => k))
  (at level 61, r at next level, right associativity).

(** ** Dates (pandas Timestamps at midnight) *)

Record date := mkDate { year : Z; month : Z; day : Z }.

Definition is_leap (y : Z) : bool :=
  (Z.eqb (y mod 4) 0 && negb (Z.eqb (y mod 100) 0)) || Z.eqb (y mod 400) 0.

Definition days_in_month (y m : Z) : Z :=
  if Z.eqb m 2 then (if is_leap y then 29 else 28)
  else if existsb (Z.eqb m) [4; 6; 9; 11] then 30
  else if (1 <=? m) && (m <=? 12) then 31
  else 0.

Definition valid_date (d : date) : bool :=
  (1 <=? month d) && (month d <=? 12) &&
  (1 <=? day d) && (day d <=? days_in_month (year d) (month d)).

Definition date_eqb (a b : date) : bool :=
  Z.eqb (year a) (year b) && Z.eqb (month a) (month b) && Z.eqb (day a) (day b).

Definition date_ltb (a b : date) : bool :=
  (year a <? year b) ||
  (Z.eqb (year a) (year b) &&
   ((month a <? month b) || (Z.eqb (month a) (month b) && (day a <? day b)))).

Definition date_leb (a b : date) : bool := date_ltb a b || date_eqb a b.

(** [Series.max()] on a datetime column: NaT cells are skipped, an empty
    (or all-NaT) column gives NaT. *)
Fixpoint series_max (l : list (option date)) : option date :=
  match l with
  | [] => None
  | None :: t => series_max t
  | Some d :: t =>
      match series_max t with
      | None => Some d
      | Some m => Some (if date_ltb d m then m else d)
      end
  end.

(** The calendar part of [ts - pd.DateOffset(years=n)]: same month, day
    clipped to the month ([ts_sub] below adds the range check). *)
Definition sub_years (n : Z) (d : date) : date :=
  mkDate (year d - n) (month d) (Z.min (day d) (days_in_month (year d - n) (month d))).

(** The calendar part of [ts - pd.DateOffset(months=n)]: calendar months
    back, day clipped. *)
Definition sub_months (n : Z) (d : date) : date :=
  let t := year d * 12 + (month d - 1) - n in
  let y := t / 12 in
  let m := t mod 12 + 1 in
  mkDate y m (Z.min (day d) (days_in_month y m)).

(** Element-wise [series == ts]: NaT compares unequal to everything. *)
Definition month_is (c : option date) (m : option date) : bool :=
  match c, m with
  | Some a, Some b => date_eqb a b
  | _, _ => false
  end.

(** [ts.strftime('%B %Y')]: raises on NaT. *)
Definition month_name (m : Z) : string :=
  nth (Z.to_nat (m - 1))
    ["January"; "February"; "March"; "April"; "May"; "June"; "July";
     "August"; "September"; "October"; "November"; "December"]%string ""%string.

Definition strftime_B_Y (m : option date) : result (string * Z) :=
  match m with
  | Some d => Ok (month_name (month d), year d)
  | None => Err "ValueError: NaTType does not support strftime"%string
  end.

(** ** Numbers: pandas aggregations and Python arithmetic *)

Definition pyfloat := option Q.

(** [a > b] *)
Definition q_gt (a b : Q) : bool := negb (Qle_bool a b).

(** [Series.sum()]: NaN skipped, empty sum is 0; an exact sum (float
    rounding, and with it the dependence on the order of the rows, is
    not modelled). *)
Definition nansum (l : list pyfloat) : Q :=
  fold_right (fun c acc => match c with Some q => (q + acc)%Q | None => acc end) 0%Q l.

Fixpoint present (l : list pyfloat) : list Q :=
  match l with
  | [] => []
  | Some q :: t => q :: present t
  | None :: t => present t
  end.

(** [Series.mean()]: NaN skipped, mean of nothing is NaN. *)
Definition nanmean (l : list pyfloat) : pyfloat :=
  match present l with
  | [] => None
  | vs => Some (fold_right Qplus 0%Q vs / inject_Z (Z.of_nat (length vs)))%Q
  end.

(** [a - b] on floats: NaN propagates. *)
Definition fsub (a b : pyfloat) : pyfloat :=
  match a, b with
  | Some x, Some y => Some (x - y)%Q
  | _, _ => None
  end.

(** The builtin [max(0, x)]: keeps the first argument unless [x > 0];
    in particular [max(0, nan)] is [0]. *)
Definition py_max0 (x : pyfloat) : Q :=
  match x with
  | Some q => if q_gt q 0 then q else 0%Q
  | None => 0%Q
  end.

(** [a / b]: division by zero raises. *)
Definition py_div (a b : Q) : result Q :=
  if Qeq_bool b 0 then Err "ZeroDivisionError"%string else Ok (a / b)%Q.

(** ** The loaded DataFrames *)

(** [waste.csv]: Month, Hotel, Recycling Rates, Food Waste (long format). *)
Record waste_row := mkWaste {
  w_month : option date; w_hotel : string;
  w_recycling : pyfloat; w_food : pyfloat }.

(** [elec.csv] and [water.csv]: Month plus one usage column per hotel. *)
Record wide_row := mkWide { r_month : option date; r_cells : list (string * pyfloat) }.
Record wide_table := mkTable { t_cols : list string; t_rows : list wide_row }.

(** [occ_sleepers.csv]: Month, Hotel, Sleepers, Occupancy Rate. *)
Record occ_row := mkOcc {
  o_month : option date; o_hotel : string;
  o_sleepers : pyfloat; o_rate : pyfloat }.

(** The dict returned by [load_data]. *)
Record bundle := mkBundle {
  waste : list waste_row; electricity : wide_table;
  water : wide_table; occupancy : list occ_row }.

Definition cell (h : string) (r : wide_row) : pyfloat :=
  match find (fun kv => String.eqb (fst kv) h) (r_cells r) with
  | Some (_, v) => v
  | None => None
  end.

(** [df[['Month', h]]]: a KeyError when the column is absent. *)
Definition select_col (t : wide_table) (h : string)
  : result (list (option date * pyfloat)) :=
  if existsb (String.eqb h) (t_cols t)
  then Ok (map (fun r => (r_month r, cell h r)) (t_rows t))
  else Err ("KeyError: " ++ h)%string.

(** [col[col['Month'] == m][h].sum()] *)
Definition col_sum_at (col : list (option date * pyfloat)) (m : option date) : Q :=
  nansum (map snd (filter (fun p => month_is (fst p) m) col)).

Definition hotel_waste (d : bundle) (h : string) : list waste_row :=
  filter (fun r => String.eqb (w_hotel r) h) (waste d).

Definition hotel_occupancy (d : bundle) (h : string) : list occ_row :=
  filter (fun r => String.eqb (o_hotel r) h) (occupancy d).

(** [occ[occ['Month'] == m]['Sleepers'].sum()] *)
Definition sleepers_at (occ : list occ_row) (m : option date) : Q :=
  nansum (map o_sleepers (filter (fun r => month_is (o_month r) m) occ)).

(** [waste[waste['Month'] == m][col].mean()] *)
Definition waste_mean_at (f : waste_row -> pyfloat) (hw : list waste_row)
  (m : option date) : pyfloat :=
  nanmean (map f (filter (fun r => month_is (w_month r) m) hw)).

(** [usage / occ if occ > 0 else 0] *)
Definition per_guest (usage occ : Q) : result Q :=
  if q_gt occ 0 then py_div usage occ else Ok 0%Q.

Definition co2_factor : Q := 233 # 1000.
Definition target_rate : Q := 50 # 100.

Record metrics := mkMetrics {
  water_saved : Q; co2_saved : Q; recycling_rate : pyfloat;
  recycling_target : Q; food_saved : Q; month_label : string * Z }.

Definition latest_month (d : bundle) : option date :=
  series_max (map w_month (waste d)).

(** [a / b] with a float dividend (the divisor is [recycling_target]):
    NaN propagates. *)
Definition fdiv (a : pyfloat) (b : Q) : pyfloat := option_map (fun x => x / b)%Q a.

(** The builtin [min(a, b)]: keeps [a] unless [b < a]; so [min(nan, 1.0)]
    is NaN. *)
Definition py_min (a : pyfloat) (b : Q) : pyfloat :=
  match a with
  | Some x => if q_gt x b then Some b else Some x
  | None => None
  end.

(** [st.progress(value)] with a float: accepted when
    [0.0 <= value <= 1.0]; otherwise, NaN included, it raises
    StreamlitAPIException. *)
Definition st_progress (v : pyfloat) : result unit :=
  match v with
  | Some q =>
      if Qle_bool 0 q && Qle_bool q 1 then Ok tt
      else Err "StreamlitAPIException: Progress Value has invalid value [0.0, 1.0]"%string
  | None => Err "StreamlitAPIException: Progress Value has invalid value [0.0, 1.0]: nan"%string
  end.

(** ** The Timestamp range *)

(** pandas 2 parses the Month strings into [datetime64[ns]]: the
    Timestamps from 1677-09-21 00:12:43 to 2262-04-11 23:47:16, so at
    midnight the dates 1677-09-22 to 2262-04-11. *)
Definition ns_min : date := mkDate 1677 9 22.
Definition ns_max : date := mkDate 2262 4 11.

Definition pandas2_range (x : date) : bool := date_leb ns_min x && date_leb x ns_max.

(** pandas 3 parses strings at microsecond resolution: the years 1 to
    9999 of Python's [datetime]. *)
Definition pandas3_range (x : date) : bool := (1 <=? year x) && (year x <=? 9999).

Section Pandas.

(** The Timestamps the installed pandas can represent, as a test on dates
    at midnight; [pandas2_range] and [pandas3_range] above are the two
    versions' ranges. No version is pinned, so the definitions below take
    the range as a parameter and the statements about them hold for
    every range. *)
Variable ts_ok : date -> bool.

(** ** The calculation *)

(** [ts - pd.DateOffset(...)], with [f] the calendar part ([sub_years 1]
    or [sub_months 1]): NaT stays NaT, a date outside the range raises
    OutOfBoundsDatetime. *)
Definition ts_sub (f : date -> date) (t : option date) : result (option date) :=
  match t with
  | None => Ok None
  | Some x =>
      if ts_ok (f x) then Ok (Some (f x))
      else Err "OutOfBoundsDatetime: Out of bounds timestamp"%string
  end.

(** The body of the [try] in [calculate_guest_impact]; the [except]
    turns every [Err] into the reported message and [None]. The offset
    [latest_month - pd.DateOffset(years=1)] is first computed on the
    line of [prev_year_water], [pd.DateOffset(months=1)] on the line of
    [prev_food_waste]. *)
Definition calculate_guest_impact (d : bundle) (h : string) : result metrics :=
  let latest := latest_month d in
  let hw := hotel_waste d h in
  hwater <- select_col (water d) h ;;
  helec <- select_col (electricity d) h ;;
  let hocc := hotel_occupancy d h in
  let current_month_water := col_sum_at hwater latest in
  prev_year <- ts_sub (sub_years 1) latest ;;
  let prev_year_water := col_sum_at hwater prev_year in
  let current_month_occ := sleepers_at hocc latest in
  let prev_year_occ := sleepers_at hocc prev_year in
  current_water_per_guest <- per_guest current_month_water current_month_occ ;;
  prev_water_per_guest <- per_guest prev_year_water prev_year_occ ;;
  let water_saved_per_guest :=
    py_max0 (Some (prev_water_per_guest - current_water_per_guest)%Q) in
  let current_energy := col_sum_at helec latest in
  let prev_year_energy := col_sum_at helec prev_year in
  current_energy_per_guest <- per_guest current_energy current_month_occ ;;
  prev_energy_per_guest <- per_guest prev_year_energy prev_year_occ ;;
  let co2_saved_per_guest :=
    py_max0 (Some ((prev_energy_per_guest - current_energy_per_guest) * co2_factor)%Q) in
  let latest_recycling := waste_mean_at w_recycling hw latest in
  let current_food_waste := waste_mean_at w_food hw latest in
  prev_month <- ts_sub (sub_months 1) latest ;;
  let prev_food_waste := waste_mean_at w_food hw prev_month in
  let food_waste_reduction := py_max0 (fsub prev_food_waste current_food_waste) in
  label <- strftime_B_Y latest ;;
  Ok (mkMetrics water_saved_per_guest co2_saved_per_guest latest_recycling
        target_rate food_waste_reduction label).

(** ** Loading: [pd.read_csv], [pd.to_datetime(format='%d/%m/%Y')] *)

(** The frames as [pd.read_csv] returns them, before conversion: a Month
    or Occupancy Rate cell is its text ([None] for an empty cell, read
    as NaN). The other columns the module reads are there and hold
    numbers (Hotel: non-empty names). *)
Record raw_waste_row := mkRawWaste {
  rw_month : option string; rw_hotel : string;
  rw_recycling : pyfloat; rw_food : pyfloat }.
Record raw_wide_row := mkRawWide {
  rr_month : option string; rr_cells : list (string * pyfloat) }.
Record raw_wide := mkRawTable { rt_cols : list string; rt_rows : list raw_wide_row }.
Record raw_occ_row := mkRawOcc {
  ro_month : option string; ro_hotel : string;
  ro_sleepers : pyfloat; ro_rate : option string }.

(** A data file at its fixed path: missing, present but not parsable by
    [pd.read_csv] (a row with more fields than the header gives
    ParserError, an empty file EmptyDataError; [msg] is the exception's
    text), or present and read into a frame. *)
Inductive csv_file (A : Type) : Type :=
| Missing
| Unparsable (msg : string)
| Table (t : A).
#[global] Arguments Missing {A}.
#[global] Arguments Unparsable {A} msg.
#[global] Arguments Table {A} t.

(** The four files. *)
Record files := mkFiles {
  f_waste : csv_file (list raw_waste_row); f_elec : csv_file raw_wide;
  f_water : csv_file raw_wide; f_occ : csv_file (list raw_occ_row) }.

Definition read_csv {A : Type} (path : string) (f : csv_file A) : result A :=
  match f with
  | Table t => Ok t
  | Unparsable msg => Err msg
  | Missing => Err ("FileNotFoundError: " ++ path)%string
  end.

Definition is_digit (c : ascii) : bool :=
  (48 <=? nat_of_ascii c)%nat && (nat_of_ascii c <=? 57)%nat.

Definition digit_val (c : ascii) : Z := Z.of_nat (nat_of_ascii c) - 48.

(** One [%d] or [%m] field followed by '/': one or two digits (for [%d]
    also a space-padded digit), as in the strptime regex. *)
Definition field_slash (space_ok : bool) (l : list ascii) : option (Z * list ascii) :=
  match l with
  | c1 :: c2 :: c3 :: rest =>
      if is_digit c1 && is_digit c2 && Ascii.eqb c3 "/"
      then Some (10 * digit_val c1 + digit_val c2, rest)
      else if space_ok && Ascii.eqb c1 " " && is_digit c2 && Ascii.eqb c3 "/"
      then Some (digit_val c2, rest)
      else if is_digit c1 && Ascii.eqb c2 "/"
      then Some (digit_val c1, c3 :: rest)
      else None
  | [c1; c2] =>
      if is_digit c1 && Ascii.eqb c2 "/" then Some (digit_val c1, []) else None
  | _ => None
  end.

(** [%Y]: exactly four digits, then the end of the cell. *)
Definition field_year (l : list ascii) : option Z :=
  match l with
  | [a; b; c; d] =>
      if is_digit a && is_digit b && is_digit c && is_digit d
      then Some (1000 * digit_val a + 100 * digit_val b + 10 * digit_val c + digit_val d)
      else None
  | _ => None
  end.

(** [strptime(s, '%d/%m/%Y')] as pandas applies it: the format and a
    calendar date; [None] when it raises ValueError. *)
Definition parse_dmy (s : string) : option date :=
  match field_slash true (list_ascii_of_string s) with
  | None => None
  | Some (dd, r1) =>
      match field_slash false r1 with
      | None => None
      | Some (mm, r2) =>
          match field_year r2 with
          | None => None
          | Some yy =>
              let dt := mkDate yy mm dd in
              if (1 <=? dd) && (dd <=? 31) && (1 <=? mm) && (mm <=? 12) && valid_date dt
              then Some dt else None
          end
      end
  end.

(** [pd.to_datetime(cell, format='%d/%m/%Y')]: NaN gives NaT, a cell that
    does not parse raises ValueError, a date outside the Timestamp range
    raises OutOfBoundsDatetime. *)
Definition to_datetime (c : option string) : result (option date) :=
  match c with
  | None => Ok None
  | Some s =>
      match parse_dmy s with
      | Some dt =>
          if ts_ok dt then Ok (Some dt)
          else Err ("OutOfBoundsDatetime: Out of bounds timestamp: " ++ s)%string
      | None => Err ("ValueError: time data " ++ s ++ " does not match format")%string
      end
  end.

Fixpoint map_res {A B : Type} (f : A -> result B) (l : list A) : result (list B) :=
  match l with
  | [] => Ok []
  | x :: t => y <- f x ;; ys <- map_res f t ;; Ok (y :: ys)
  end.

(** [str.rstrip('%')] *)
Fixpoint strip_pct_rev (l : list ascii) : list ascii :=
  match l with
  | c :: t => if Ascii.eqb c "%" then strip_pct_rev t else l
  | [] => []
  end.

Definition rstrip_pct (s : string) : string :=
  string_of_list_ascii (rev (strip_pct_rev (rev (list_ascii_of_string s)))).

(** [pd.read_csv]'s type inference on the Occupancy Rate column, given
    its non-empty cells: [true] when the column is kept as text (object
    dtype), [false] when the cells all read as numbers (or all as
    booleans), which gives a numeric (or bool) column. *)
Variable csv_text_column : list string -> bool.

(** Python's [float(s)]: [None] when it raises ValueError, [Some None] for
    a NaN literal. Infinities are not modelled. *)
Variable py_float : string -> option pyfloat.

(** The non-empty Occupancy Rate cells. *)
Definition rate_cells (oc : list raw_occ_row) : list string :=
  flat_map (fun r => match ro_rate r with Some s => [s] | None => [] end) oc.

(** The dtype of the Occupancy Rate column: a file with no rows has
    object columns; a column whose cells are all empty is float NaN;
    otherwise [pd.read_csv] infers it from the cells. *)
Definition rate_column_is_text (oc : list raw_occ_row) : bool :=
  match oc, rate_cells oc with
  | [], _ => true
  | _ :: _, [] => false
  | _ :: _, cells => csv_text_column cells
  end.

(** [.str.rstrip('%').astype(float) / 100] on one cell of a text column. *)
Definition convert_rate (c : option string) : result pyfloat :=
  match c with
  | None => Ok None
  | Some s =>
      match py_float (rstrip_pct s) with
      | Some v => Ok (option_map (fun q => q / 100)%Q v)
      | None => Err ("ValueError: could not convert string to float: " ++ s)%string
      end
  end.

(** [occupancy_df['Occupancy Rate'].str.rstrip('%').astype(float) / 100]:
    the [.str] accessor raises AttributeError on a column that is not
    text. *)
Definition convert_rates (oc : list raw_occ_row) : result (list pyfloat) :=
  if rate_column_is_text oc then map_res (fun r => convert_rate (ro_rate r)) oc
  else Err "AttributeError: Can only use .str accessor with string values!"%string.

Definition convert_waste_row (r : raw_waste_row) : result waste_row :=
  m <- to_datetime (rw_month r) ;;
  Ok (mkWaste m (rw_hotel r) (rw_recycling r) (rw_food r)).

Definition convert_wide_row (r : raw_wide_row) : result wide_row :=
  m <- to_datetime (rr_month r) ;;
  Ok (mkWide m (rr_cells r)).

Definition convert_wide (t : raw_wide) : result wide_table :=
  rows <- map_res convert_wide_row (rt_rows t) ;;
  Ok (mkTable (rt_cols t) rows).

(** The occupancy frame with its Month and Occupancy Rate columns
    replaced by their converted values. *)
Definition occ_rows (oc : list raw_occ_row) (ms : list (option date)) (rs : list pyfloat)
  : list occ_row :=
  map (fun p => match p with (r, (m, q)) => mkOcc m (ro_hotel r) (ro_sleepers r) q end)
      (combine oc (combine ms rs)).

Definition convert_occ_month (r : raw_occ_row) : result (option date) :=
  to_datetime (ro_month r).

(** The body of the [try] in [load_data] (the two [mkdir] calls before
    it are assumed to succeed); the [except] turns every [Err] into the
    reported message and [None]. *)
Definition load_data (fs : files) : result bundle :=
  waste_df <- read_csv "data/waste.csv" (f_waste fs) ;;
  electricity_df <- read_csv "data/elec.csv" (f_elec fs) ;;
  water_df <- read_csv "data/water.csv" (f_water fs) ;;
  occupancy_df <- read_csv "data/occ_sleepers.csv" (f_occ fs) ;;
  waste' <- map_res convert_waste_row waste_df ;;
  electricity' <- convert_wide electricity_df ;;
  water' <- convert_wide water_df ;;
  occ_months <- map_res convert_occ_month occupancy_df ;;
  rates <- convert_rates occupancy_df ;;
  Ok (mkBundle waste' electricity' water' (occ_rows occupancy_df occ_months rates)).

(** What the page shows: the load error, the calculation error (nothing
    else rendered), the dashboard for the selected hotel, or a page that
    stops with an uncaught exception after the header and the impact
    cards of the dashboard were rendered. *)
Inductive page :=
| LoadFailed (msg : string)
| CalcFailed (msg : string)
| PageCrashed (hotel : string) (m : metrics) (msg : string)
| Dashboard (hotel : string) (m : metrics).

(** [st.progress(0.80)] for the energy card always passes; the recycling
    bar gets [min(recycling_progress, 1.0)], outside [show_guest_display]'s
    reach of any [try]. *)
Definition show_guest_display (fs : files) (selected_hotel : string) : page :=
  match load_data fs with
  | Err e => LoadFailed e
  | Ok data =>
      match calculate_guest_impact data selected_hotel with
      | Err e => CalcFailed e
      | Ok ms =>
          let recycling_progress := fdiv (recycling_rate ms) (recycling_target ms) in
          match st_progress (py_min recycling_progress 1%Q) with
          | Err e => PageCrashed selected_hotel ms e
          | Ok _ => Dashboard selected_hotel ms
          end
      end
  end.

End Pandas.

(** A sound fragment of Python's [float(s)]: optional minus sign, digits,
    an optional fractional part. Whatever it accepts, [float] accepts with
    the same value. *)
Fixpoint split_dot (l : list ascii) : list ascii * option (list ascii) :=
  match l with
  | [] => ([], None)
  | c :: t =>
      if Ascii.eqb c "." then ([], Some t)
      else let (a, b) := split_dot t in (c :: a, b)
  end.

Fixpoint digits_z (l : list ascii) (acc : Z) : option Z :=
  match l with
  | [] => Some acc
  | c :: t => if is_digit c then digits_z t (10 * acc + digit_val c) else None
  end.

Definition decimal_float (s : string) : option pyfloat :=
  let l := list_ascii_of_string s in
  let '(sg, body) :=
    match l with
    | c :: t => if Ascii.eqb c "-" then ((-1)%Z, t) else (1%Z, l)
    | [] => (1%Z, l)
    end in
  match split_dot body with
  | ([], None) => None
  | ([], Some []) => None
  | (ip, None) =>
      match digits_z ip 0 with
      | Some n => Some (Some (inject_Z (sg * n)))
      | None => None
      end
  | (ip, Some fp) =>
      match digits_z ip 0, digits_z fp 0 with
      | Some n, Some f =>
          let k := 10 ^ Z.of_nat (length fp) in
          Some (Some ((sg * (n * k + f)) # Z.to_pos k))
      | _, _ => None
      end
  end.

(** [pd.read_csv]'s type inference on cells that are decimal numbers or
    carry a '%': a column with a cell that is not a decimal number stays
    text. *)
Definition text_unless_numeric (cells : list string) : bool :=
  existsb (fun s => match decimal_float s with Some _ => false | None => true end) cells.

(** ** Example data *)

Open Scope string_scope.

Definition jan24 : date := mkDate 2024 1 1.
Definition dec23 : date := mkDate 2023 12 1.
Definition jan23 : date := mkDate 2023 1 1.

(** One hotel; water 1000 units over 100 guests this January against
    1200 over 100 a year before; electricity 2000 against 3000. *)
Definition ex_bundle : bundle :=
  mkBundle
    [mkWaste (Some jan24) "Camden" (Some (45 # 100)) (Some 3%Q);
     mkWaste (Some dec23) "Camden" (Some (40 # 100)) (Some 4%Q)]
    (mkTable ["Camden"]
       [mkWide (Some jan24) [("Camden", Some 2000%Q)];
        mkWide (Some jan23) [("Camden", Some 3000%Q)]])
    (mkTable ["Camden"]
       [mkWide (Some jan24) [("Camden", Some 1000%Q)];
        mkWide (Some jan23) [("Camden", Some 1200%Q)]])
    [mkOcc (Some jan24) "Camden" (Some 100%Q) (Some (8 # 10));
     mkOcc (Some jan23) "Camden" (Some 100%Q) (Some (7 # 10))].

(** Two hotels; only Camden reported waste for the latest month. *)
Definition ex_two_hotels : bundle :=
  mkBundle
    [mkWaste (Some jan24) "Camden" (Some (45 # 100)) (Some 3%Q);
     mkWaste (Some dec23) "Westin" (Some (40 # 100)) (Some 4%Q)]
    (mkTable ["Camden"; "Westin"]
       [mkWide (Some jan24) [("Camden", Some 2000%Q); ("Westin", Some 1500%Q)]])
    (mkTable ["Camden"; "Westin"]
       [mkWide (Some jan24) [("Camden", Some 1000%Q); ("Westin", Some 900%Q)]])
    [mkOcc (Some jan24) "Camden" (Some 100%Q) (Some (8 # 10));
     mkOcc (Some jan24) "Westin" (Some 90%Q) (Some (6 # 10))].

(** Camden's water meter has no reading for the month twelve months
    before January 2024; its January reading is there. *)
Definition ex_no_prev_water : bundle :=
  mkBundle
    [mkWaste (Some jan24) "Camden" (Some (45 # 100)) (Some 3%Q)]
    (mkTable ["Camden"]
       [mkWide (Some jan24) [("Camden", Some 2000%Q)];
        mkWide (Some jan23) [("Camden", Some 3000%Q)]])
    (mkTable ["Camden"] [mkWide (Some jan24) [("Camden", Some 1000%Q)]])
    [mkOcc (Some jan24) "Camden" (Some 100%Q) (Some (8 # 10));
     mkOcc (Some jan23) "Camden" (Some 100%Q) (Some (7 # 10))].

(** Camden's water meter has a reading for January 2023 but none for the
    latest month, January 2024. *)
Definition ex_no_current_water : bundle :=
  mkBundle
    [mkWaste (Some jan24) "Camden" (Some (45 # 100)) (Some 3%Q)]
    (mkTable ["Camden"]
       [mkWide (Some jan24) [("Camden", Some 2000%Q)];
        mkWide (Some jan23) [("Camden", Some 3000%Q)]])
    (mkTable ["Camden"] [mkWide (Some jan23) [("Camden", Some 1200%Q)]])
    [mkOcc (Some jan24) "Camden" (Some 100%Q) (Some (8 # 10));
     mkOcc (Some jan23) "Camden" (Some 100%Q) (Some (7 # 10))].

(** Four files; the second waste row has an empty Month cell. *)
Definition fs_empty_month : files :=
  mkFiles
    (Table [mkRawWaste (Some "01/01/2024") "Camden" (Some (45 # 100)) (Some 3%Q);
            mkRawWaste None "Camden" (Some (40 # 100)) (Some 4%Q)])
    (Table (mkRawTable ["Camden"] [mkRawWide (Some "01/01/2024") [("Camden", Some 2000%Q)]]))
    (Table (mkRawTable ["Camden"] [mkRawWide (Some "01/01/2024") [("Camden", Some 1000%Q)]]))
    (Table [mkRawOcc (Some "01/01/2024") "Camden" (Some 100%Q) (Some "80%")]).

(** [fs_empty_month] with a Month cell of 1600 in the waste file. *)
Definition fs_1600 : files :=
  mkFiles
    (Table [mkRawWaste (Some "01/01/1600") "Camden" (Some (45 # 100)) (Some 3%Q)])
    (f_elec fs_empty_month) (f_water fs_empty_month) (f_occ fs_empty_month).

(** [fs_empty_month] with the Occupancy Rate written "80", without '%':
    [pd.read_csv] reads that column as numbers. *)
Definition fs_numeric_rate : files :=
  mkFiles (f_waste fs_empty_month) (f_elec fs_empty_month) (f_water fs_empty_month)
    (Table [mkRawOcc (Some "01/01/2024") "Camden" (Some 100%Q) (Some "80")]).

(** Camden's latest month is January 2024 and its Recycling Rate then is
    negative, -0.1. *)
Definition ex_negative_rate : bundle :=
  mkBundle
    [mkWaste (Some jan24) "Camden" (Some ((-1) # 10)) (Some 3%Q)]
    (electricity ex_bundle) (water ex_bundle) (occupancy ex_bundle).

(** The latest month is January 1678: a year before it lies outside the
    [datetime64[ns]] range. *)
Definition ex_1678 : bundle :=
  mkBundle
    [mkWaste (Some (mkDate 1678 1 1)) "Camden" (Some (45 # 100)) (Some 3%Q)]
    (mkTable ["Camden"] []) (mkTable ["Camden"] []) [].

(** Camden has no occupancy row for the latest month, January 2024;
    a year before, 1200 units of water over 100 guests. *)
Definition ex_no_current_occ : bundle :=
  mkBundle (waste ex_bundle) (electricity ex_bundle) (water ex_bundle)
    [mkOcc (Some jan23) "Camden" (Some 100%Q) (Some (7 # 10))].

Close Scope string_scope.

(** ** Derived quantities *)

(** The value of [usage / occ if occ > 0 else 0]. *)
Definition per_guest_val (usage occ : Q) : Q :=
  if q_gt occ 0 then (usage / occ)%Q else 0%Q.

(** The metrics [calculate_guest_impact] returns, once both usage columns
    were found and the latest month is a date. *)
Definition metrics_at (d : bundle) (h : string)
  (hwater helec : list (option date * pyfloat)) (m : date) : metrics :=
  let hw := hotel_waste d h in
  let hocc := hotel_occupancy d h in
  let cur := Some m in
  let prev := Some (sub_years 1 m) in
  mkMetrics
    (py_max0 (Some (per_guest_val (col_sum_at hwater prev) (sleepers_at hocc prev)
                    - per_guest_val (col_sum_at hwater cur) (sleepers_at hocc cur))%Q))
    (py_max0 (Some ((per_guest_val (col_sum_at helec prev) (sleepers_at hocc prev)
                     - per_guest_val (col_sum_at helec cur) (sleepers_at hocc cur))
                    * co2_factor)%Q))
    (waste_mean_at w_recycling hw cur)
    target_rate
    (py_max0 (fsub (waste_mean_at w_food hw (Some (sub_months 1 m)))
                   (waste_mean_at w_food hw cur)))
    (month_name (month m), year m).

(** Spec side: the calendar month before [m], day clipped. *)
Definition month_before (m : date) : date :=
  if Z.eqb (month m) 1
  then mkDate (year m - 1) 12 (Z.min (day m) 31)
  else mkDate (year m) (month m - 1) (Z.min (day m) (days_in_month (year m) (month m - 1))).

(** ** Spec-side quantities *)

(** Total metered usage of hotel [h] in month [m] (a wide usage table). *)
Definition usage_in (t : wide_table) (h : string) (m : date) : Q :=
  nansum (map (cell h) (filter (fun r => month_is (r_month r) (Some m)) (t_rows t))).

(** Total Sleepers of hotel [h] in month [m]. *)
Definition guests_in (d : bundle) (h : string) (m : date) : Q :=
  nansum (map o_sleepers
    (filter (fun r => String.eqb (o_hotel r) h && month_is (o_month r) (Some m))
            (occupancy d))).

(** Per-guest value as the spec words it: 0 when there are no guests. *)
Definition spec_per_guest (usage guests : Q) : Q :=
  if Qeq_bool guests 0 then 0%Q else (usage / guests)%Q.

Definition twelve_months_before (m : date) : date := sub_months 12 m.

(** max(0, prevYearPerGuest - currentPerGuest) for a usage table. *)
Definition spec_saving (t : wide_table) (d : bundle) (h : string) (m : date) : Q :=
  Qmax 0 (spec_per_guest (usage_in t h (twelve_months_before m))
                         (guests_in d h (twelve_months_before m))
          - spec_per_guest (usage_in t h m) (guests_in d h m)).

(** Hotel [h]'s rows of the waste frame in month [m]. *)
Definition waste_rows_in (d : bundle) (h : string) (m : date) : list waste_row :=
  filter (fun r => String.eqb (w_hotel r) h && month_is (w_month r) (Some m)) (waste d).

(** Arithmetic mean of the values present; NaN for none. *)
Definition mean_of (vs : list Q) : pyfloat :=
  match vs with
  | [] => None
  | _ => Some (fold_right Qplus 0 vs / inject_Z (Z.of_nat (length vs)))%Q
  end.

(** max(0, previous-month mean Food Waste - current-month mean Food Waste);
    Python's [max(0, nan)] is 0. *)
Definition spec_food_reduction (d : bundle) (h : string) (m : date) : Q :=
  match mean_of (present (map w_food (waste_rows_in d h (month_before m)))),
        mean_of (present (map w_food (waste_rows_in d h m))) with
  | Some prev, Some cur => Qmax 0 (prev - cur)
  | _, _ => 0%Q
  end.

(** [x >= 0] on a float: false for NaN. *)
Definition nonneg_f (x : pyfloat) : Prop :=
  match x with Some q => (0 <= q)%Q | None => False end.

(** Whether a usage table has a row for month [m]. *)
Definition has_row (t : wide_table) (m : date) : bool :=
  existsb (fun r => month_is (r_month r) (Some m)) (t_rows t).

(** Whether the occupancy frame has a row of hotel [h] for month [m]. *)
Definition has_occ_row (d : bundle) (h : string) (m : date) : bool :=
  existsb (fun r => String.eqb (o_hotel r) h && month_is (o_month r) (Some m)) (occupancy d).


Section Cells.
Variable ts_ok : date -> bool.
Variable csv_text_column : list string -> bool.
Variable py_float : string -> option pyfloat.

(** What [pd.to_datetime] makes of a Month cell that it accepts. *)
Definition parse_cell (c : option string) : option date :=
  match c with
  | Some s => match parse_dmy s with Some x => if ts_ok x then Some x else None | None => None end
  | None => None
  end.




(** The converted Occupancy Rate: the percentage divided by 100. *)
Definition rate_value (c : option string) : pyfloat :=
  match c with
  | Some s => match py_float (rstrip_pct s) with
              | Some v => option_map (fun q => q / 100)%Q v
              | None => None
              end
  | None => None
  end.


End Cells.

(** Sleepers are guest-night counts. *)
Definition sleepers_nonneg (d : bundle) : Prop :=
  Forall (fun r => match o_sleepers r with Some q => (0 <= q)%Q | None => True end)
         (occupancy d).

(** Every Month of the waste frame is a calendar date, as [load_data]
    produces them. *)
Definition waste_months_valid (d : bundle) : Prop :=
  Forall (fun r => match w_month r with Some x => valid_date x = true | None => True end)
         (waste d).

Ltac forall_rows :=
  repeat (apply Forall_cons;
          [cbn; first [reflexivity | exact I | (unfold Qle; simpl; lia)] |]);
  apply Forall_nil.

(** ** The page around the metrics *)

(** [Series.unique()] on the Hotel column: the values in order of first
    appearance. *)
Fixpoint unique_from (seen : list string) (l : list string) : list string :=
  match l with
  | [] => []
  | x :: t =>
      if existsb (String.eqb x) seen then unique_from seen t
      else x :: unique_from (x :: seen) t
  end.

Definition series_unique (l : list string) : list string := unique_from [] l.

(** [sorted] on a list of str. Python compares strings code point by code
    point, a proper prefix first; on UTF-8 bytes that is [String.compare].
    The values are distinct here, so any sorting algorithm gives the same
    list as Python's. *)
Fixpoint insert_sorted (x : string) (l : list string) : list string :=
  match l with
  | [] => [x]
  | y :: t => if String.leb x y then x :: l else y :: insert_sorted x t
  end.

Definition py_sorted (l : list string) : list string := fold_right insert_sorted [] l.

(** [hotels = sorted(data['waste']['Hotel'].unique())]: the options of the
    hotel selector. *)
Definition hotel_options (d : bundle) : list string :=
  py_sorted (series_unique (map w_hotel (waste d))).

(** The figures the dashboard prints for a metrics dict, before the
    [:.0f]/[:.1f] formatting. *)
Record dashboard := mkDashboard {
  water_litres : Q; drinking_days : Q;
  co2_kg : Q; miles_not_driven : Q;
  food_grams : Q; meals_saved : Q;
  recycling_bar : pyfloat; recycling_pct : pyfloat; target_pct : Q }.

Definition render (m : metrics) : dashboard :=
  let recycling_progress := fdiv (recycling_rate m) (recycling_target m) in
  mkDashboard
    (water_saved m) (water_saved m / 75)%Q
    (co2_saved m) (co2_saved m * 4)%Q
    (food_saved m * 1000)%Q (food_saved m * 1000 / 400)%Q
    (py_min recycling_progress 1%Q)
    (option_map (fun q => q * 100)%Q (recycling_rate m))
    (recycling_target m * 100)%Q.

(** A Month value [pd.to_datetime] can produce: NaT, or a calendar date
    with a four-digit year in the Timestamp range. *)
Definition month_ok (ts_ok : date -> bool) (c : option date) : bool :=
  match c with
  | Some x => valid_date x && ts_ok x && (0 <=? year x) && (year x <=? 9999)
  | None => true
  end.

Definition bundle_months_ok (ts_ok : date -> bool) (b : bundle) : Prop :=
  Forall (fun r => month_ok ts_ok (w_month r) = true) (waste b) /\
  Forall (fun r => month_ok ts_ok (r_month r) = true) (t_rows (electricity b)) /\
  Forall (fun r => month_ok ts_ok (r_month r) = true) (t_rows (water b)) /\
  Forall (fun r => month_ok ts_ok (o_month r) = true) (occupancy b).

(** [ts.strftime('%d/%m/%Y')] for a four-digit year. *)
Definition digit_char (n : Z) : ascii := ascii_of_nat (Z.to_nat (48 + n)).

Definition format_dmy (d : date) : string :=
  string_of_list_ascii
    [digit_char (day d / 10); digit_char (day d mod 10); "/"%char;
     digit_char (month d / 10); digit_char (month d mod 10); "/"%char;
     digit_char (year d / 1000); digit_char (year d / 100 mod 10);
     digit_char (year d / 10 mod 10); digit_char (year d mod 10)].

(** The per-hotel inputs of [calculate_guest_impact] other than the latest
    month: Month and Sleepers of the hotel's occupancy rows. *)
Definition occ_sleepers (d : bundle) (h : string) : list (option date * pyfloat) :=
  map (fun r => (o_month r, o_sleepers r)) (hotel_occupancy d h).

(** [n] percent signs. *)
Definition pcts (n : nat) : string := string_of_list_ascii (repeat "%"%char n).

(** Numbers equal as rationals ([==]); NaN only equals NaN here. *)
Definition pyfloat_eqv (a b : pyfloat) : Prop :=
  match a, b with
  | Some x, Some y => (x == y)%Q
  | None, None => True
  | _, _ => False
  end.

(** More example data *)

Open Scope string_scope.

(** [ex_two_hotels] with Westin's rows and Camden's Occupancy Rates
    changed. *)
Definition ex_two_hotels_other : bundle :=
  mkBundle
    [mkWaste (Some jan24) "Camden" (Some (45 # 100)) (Some 3%Q);
     mkWaste (Some dec23) "Westin" (Some (10 # 100)) (Some 9%Q);
     mkWaste (Some jan23) "Westin" (Some (20 # 100)) (Some 7%Q)]
    (mkTable ["Camden"; "Westin"]
       [mkWide (Some jan24) [("Camden", Some 2000%Q); ("Westin", None)]])
    (mkTable ["Camden"; "Westin"]
       [mkWide (Some jan24) [("Camden", Some 1000%Q); ("Westin", Some 5%Q)]])
    [mkOcc (Some jan24) "Camden" (Some 100%Q) (Some (3 # 10));
     mkOcc (Some jan24) "Westin" (Some 10%Q) None].

(** [ex_bundle] without any occupancy row. *)
Definition ex_no_occ : bundle :=
  mkBundle (waste ex_bundle) (electricity ex_bundle) (water ex_bundle) [].

Close Scope string_scope.

(** ** Facts about the building blocks *)

Lemma q_gt_true (a b : Q) : q_gt a b = true <-> (b < a)%Q.
Proof.
  unfold q_gt. rewrite negb_true_iff. split; intro H.
  - apply Qnot_le_lt. intro H'. apply Qle_bool_iff in H'. congruence.
  - destruct (Qle_bool a b) eqn:E; [|reflexivity].
    apply Qle_bool_iff in E. exfalso. exact (Qlt_not_le _ _ H E).
Qed.

Lemma q_gt_false (a b : Q) : q_gt a b = false <-> (a <= b)%Q.
Proof.
  unfold q_gt. rewrite negb_false_iff. apply Qle_bool_iff.
Qed.

Lemma per_guest_ok (u o : Q) : per_guest u o = Ok (per_guest_val u o).
Proof.
  unfold per_guest, per_guest_val, py_div.
  destruct (q_gt o 0) eqn:E; [|reflexivity].
  apply q_gt_true in E.
  destruct (Qeq_bool o 0) eqn:E2; [|reflexivity].
  apply Qeq_bool_iff in E2. rewrite E2 in E. exfalso. exact (Qlt_irrefl 0 E).
Qed.

Lemma py_max0_nonneg (x : pyfloat) : (0 <= py_max0 x)%Q.
Proof.
  destruct x as [q|]; simpl; [|apply Qle_refl].
  destruct (q_gt q 0) eqn:E; [|apply Qle_refl].
  apply q_gt_true in E. apply Qlt_le_weak, E.
Qed.

Lemma py_max0_some (q : Q) : (py_max0 (Some q) == Qmax 0 q)%Q.
Proof.
  simpl. destruct (q_gt q 0) eqn:E.
  - apply q_gt_true in E. symmetry. apply Q.max_r. apply Qlt_le_weak, E.
  - apply q_gt_false in E. symmetry. apply Q.max_l, E.
Qed.

Lemma select_col_ok (t : wide_table) (h : string) c :
  select_col t h = Ok c <->
  In h (t_cols t) /\ c = map (fun r => (r_month r, cell h r)) (t_rows t).
Proof.
  unfold select_col. destruct (existsb (String.eqb h) (t_cols t)) eqn:E.
  - apply existsb_exists in E as [x [Hx Hxe]]. apply String.eqb_eq in Hxe. subst x.
    split; [intro H; injection H as <-; auto | intros [_ ->]; reflexivity].
  - split; [discriminate|]. intros [Hin _]. exfalso.
    assert (existsb (String.eqb h) (t_cols t) = true) as E'
      by (apply existsb_exists; exists h; split; [exact Hin | apply String.eqb_refl]).
    congruence.
Qed.

Lemma select_col_err (t : wide_table) (h : string) :
  (exists e, select_col t h = Err e) <-> ~ In h (t_cols t).
Proof.
  split.
  - intros [e He] Hin.
    unfold select_col in He. rewrite (proj2 (existsb_exists _ _)) in He; [discriminate|].
    exists h. split; [exact Hin | apply String.eqb_refl].
  - intro Hn. destruct (select_col t h) eqn:E; [|eauto].
    apply select_col_ok in E. tauto.
Qed.

Lemma calculate_guest_impact_eq (ts_ok : date -> bool) (d : bundle) (h : string) :
  calculate_guest_impact ts_ok d h =
  match select_col (water d) h, select_col (electricity d) h, latest_month d with
  | Err e, _, _ => Err e
  | Ok _, Err e, _ => Err e
  | Ok hwater, Ok helec, Some m =>
      if ts_ok (sub_years 1 m) && ts_ok (sub_months 1 m)
      then Ok (metrics_at d h hwater helec m)
      else Err "OutOfBoundsDatetime: Out of bounds timestamp"%string
  | Ok _, Ok _, None => Err "ValueError: NaTType does not support strftime"%string
  end.
Proof.
  unfold calculate_guest_impact.
  destruct (select_col (water d) h) as [hwater|e]; [|reflexivity].
  destruct (select_col (electricity d) h) as [helec|e]; [|reflexivity].
  cbn [bind]. destruct (latest_month d) as [m|]; cbn [ts_sub bind].
  - destruct (ts_ok (sub_years 1 m)); cbn [bind andb]; [|reflexivity].
    rewrite !per_guest_ok. cbn [bind].
    destruct (ts_ok (sub_months 1 m)); reflexivity.
  - rewrite !per_guest_ok. reflexivity.
Qed.

Lemma calculate_guest_impact_ok (ts_ok : date -> bool) (d : bundle) (h : string) (r : metrics) :
  calculate_guest_impact ts_ok d h = Ok r ->
  exists hwater helec m,
    select_col (water d) h = Ok hwater /\
    select_col (electricity d) h = Ok helec /\
    latest_month d = Some m /\ r = metrics_at d h hwater helec m.
Proof.
  rewrite calculate_guest_impact_eq.
  destruct (select_col (water d) h) as [hwater|e]; [|discriminate].
  destruct (select_col (electricity d) h) as [helec|e]; [|discriminate].
  destruct (latest_month d) as [m|]; [|discriminate].
  destruct (ts_ok (sub_years 1 m) && ts_ok (sub_months 1 m)); [|discriminate].
  intro H. injection H as <-. eauto 7.
Qed.

(** ** Calendar facts *)

Lemma date_ltb_iff (a b : date) :
  date_ltb a b = true <->
  year a < year b \/
  (year a = year b /\ (month a < month b \/ (month a = month b /\ day a < day b))).
Proof.
  unfold date_ltb.
  rewrite orb_true_iff, andb_true_iff, orb_true_iff, andb_true_iff,
    !Z.ltb_lt, !Z.eqb_eq. tauto.
Qed.

Lemma date_leb_iff (a b : date) :
  date_leb a b = true <->
  year a < year b \/
  (year a = year b /\ (month a < month b \/ (month a = month b /\ day a <= day b))).
Proof.
  unfold date_leb. rewrite orb_true_iff, date_ltb_iff.
  unfold date_eqb. rewrite !andb_true_iff, !Z.eqb_eq. lia.
Qed.

Lemma date_leb_refl (a : date) : date_leb a a = true.
Proof. apply date_leb_iff. lia. Qed.

Lemma date_leb_trans (a b c : date) :
  date_leb a b = true -> date_leb b c = true -> date_leb a c = true.
Proof. rewrite !date_leb_iff. lia. Qed.

Lemma date_ltb_false (a b : date) : date_ltb a b = false -> date_leb b a = true.
Proof.
  intro H. apply date_leb_iff.
  destruct (date_ltb a b) eqn:E; [discriminate|].
  assert (~ (year a < year b \/
    (year a = year b /\ (month a < month b \/ (month a = month b /\ day a < day b)))))
    as Hn by (rewrite <- date_ltb_iff; congruence).
  lia.
Qed.

Lemma date_ltb_true (a b : date) : date_ltb a b = true -> date_leb a b = true.
Proof. unfold date_leb. intros ->. reflexivity. Qed.

Lemma series_max_in (l : list (option date)) (m : date) :
  series_max l = Some m -> In (Some m) l.
Proof.
  induction l as [|[x|] t IH]; simpl; [discriminate| |auto].
  destruct (series_max t) as [m'|].
  - intro H. injection H as <-. destruct (date_ltb x m'); auto.
  - intro H. injection H as <-. auto.
Qed.

Lemma series_max_ge (l : list (option date)) (m x : date) :
  series_max l = Some m -> In (Some x) l -> date_leb x m = true.
Proof.
  revert m. induction l as [|[y|] t IH]; intros m; simpl; [discriminate| |].
  - destruct (series_max t) as [m'|] eqn:Et; intros H Hin; injection H as <-.
    + destruct (date_ltb y m') eqn:Ey.
      * destruct Hin as [Hy|Hin]; [injection Hy as ->; apply date_ltb_true, Ey|].
        apply IH; auto.
      * destruct Hin as [Hy|Hin]; [injection Hy as ->; apply date_leb_refl|].
        apply date_leb_trans with m'; [apply IH; auto | apply date_ltb_false, Ey].
    + destruct Hin as [Hy|Hin]; [injection Hy as ->; apply date_leb_refl|].
      destruct t as [|c t']; [contradiction|].
      exfalso. revert Et Hin. clear. induction (c :: t') as [|[z|] u IHu]; simpl.
      * contradiction.
      * destruct (series_max u); discriminate.
      * intros Hu [Hz|Hz]; [discriminate | exact (IHu Hu Hz)].
  - intros H [Hn|Hin]; [discriminate|]. apply IH; auto.
Qed.

(** [DateOffset(years=1)] and twelve calendar months agree on dates whose
    month is in range. *)
Lemma sub_years_1_eq_sub_months_12 (m : date) :
  1 <= month m <= 12 -> sub_years 1 m = sub_months 12 m.
Proof.
  intro Hm. unfold sub_years, sub_months.
  assert (E : year m * 12 + (month m - 1) - 12 = 12 * (year m - 1) + (month m - 1)) by lia.
  rewrite E.
  rewrite <- (Z.div_unique _ 12 (year m - 1) (month m - 1)); [| lia | reflexivity].
  rewrite <- (Z.mod_unique _ 12 (year m - 1) (month m - 1)); [| lia | reflexivity].
  replace (month m - 1 + 1) with (month m) by lia. reflexivity.
Qed.

Lemma sub_months_1_eq_month_before (m : date) :
  1 <= month m <= 12 -> sub_months 1 m = month_before m.
Proof.
  intro Hm. unfold sub_months, month_before.
  destruct (Z.eqb_spec (month m) 1) as [E1|E1].
  - assert (E : year m * 12 + (month m - 1) - 1 = 12 * (year m - 1) + 11) by lia.
    rewrite E.
    rewrite <- (Z.div_unique _ 12 (year m - 1) 11); [| lia | reflexivity].
    rewrite <- (Z.mod_unique _ 12 (year m - 1) 11); [| lia | reflexivity].
    reflexivity.
  - assert (E : year m * 12 + (month m - 1) - 1 = 12 * year m + (month m - 2)) by lia.
    rewrite E.
    rewrite <- (Z.div_unique _ 12 (year m) (month m - 2)); [| lia | reflexivity].
    rewrite <- (Z.mod_unique _ 12 (year m) (month m - 2)); [| lia | reflexivity].
    replace (month m - 2 + 1) with (month m - 1) by lia. reflexivity.
Qed.

Lemma col_sum_at_usage (t : wide_table) (h : string) (m : date) :
  col_sum_at (map (fun r => (r_month r, cell h r)) (t_rows t)) (Some m) = usage_in t h m.
Proof.
  unfold col_sum_at, usage_in. f_equal.
  induction (t_rows t) as [|r rs IH]; [reflexivity|].
  simpl. destruct (month_is (r_month r) (Some m)); simpl; [f_equal|]; exact IH.
Qed.

Lemma sleepers_at_guests (d : bundle) (h : string) (m : date) :
  sleepers_at (hotel_occupancy d h) (Some m) = guests_in d h m.
Proof.
  unfold sleepers_at, hotel_occupancy, guests_in. f_equal.
  induction (occupancy d) as [|r rs IH]; [reflexivity|].
  simpl. destruct (String.eqb (o_hotel r) h); simpl; [|exact IH].
  destruct (month_is (o_month r) (Some m)); simpl; [f_equal|]; exact IH.
Qed.

Lemma nansum_nonneg (l : list pyfloat) :
  Forall (fun c => match c with Some q => (0 <= q)%Q | None => True end) l ->
  (0 <= nansum l)%Q.
Proof.
  induction 1 as [|c l Hc _ IH]; [apply Qle_refl|].
  unfold nansum in *. simpl. destruct c as [q|]; [|exact IH].
  apply Qle_trans with (0 + 0)%Q; [compute; discriminate|].
  apply Qplus_le_compat; assumption.
Qed.

Lemma Forall_filter_sub {A : Type} (P : A -> Prop) (f : A -> bool) (l : list A) :
  Forall P l -> Forall P (filter f l).
Proof.
  rewrite !Forall_forall. intros H x Hx. apply filter_In in Hx. apply H, Hx.
Qed.

Lemma guests_in_nonneg (d : bundle) (h : string) (m : date) :
  sleepers_nonneg d -> (0 <= guests_in d h m)%Q.
Proof.
  intro Hs. apply nansum_nonneg. apply Forall_map.
  apply Forall_filter_sub. exact Hs.
Qed.

Lemma per_guest_val_spec (u o : Q) :
  (0 <= o)%Q -> per_guest_val u o = spec_per_guest u o.
Proof.
  intro Ho. unfold per_guest_val, spec_per_guest.
  destruct (q_gt o 0) eqn:E; destruct (Qeq_bool o 0) eqn:E2; try reflexivity.
  - apply q_gt_true in E. apply Qeq_bool_iff in E2. rewrite E2 in E.
    exfalso. exact (Qlt_irrefl 0 E).
  - apply q_gt_false in E. exfalso.
    assert (H0 : (o == 0)%Q) by (apply Qle_antisym; assumption).
    apply Qeq_bool_iff in H0. congruence.
Qed.

Lemma latest_month_in_range (d : bundle) (m : date) :
  waste_months_valid d -> latest_month d = Some m -> 1 <= month m <= 12.
Proof.
  intros Hv Hm. apply series_max_in in Hm.
  apply in_map_iff in Hm as [r [Hr Hin]].
  apply (proj1 (Forall_forall _ _) Hv) in Hin. rewrite Hr in Hin.
  unfold valid_date in Hin. rewrite !andb_true_iff, !Z.leb_le in Hin. lia.
Qed.

Lemma max0_scale (x c : Q) :
  (0 <= c)%Q -> (py_max0 (Some (x * c)) == Qmax 0 x * c)%Q.
Proof.
  intro Hc. eapply Qeq_trans; [apply py_max0_some|].
  destruct (Qlt_le_dec 0 x) as [Hx|Hx].
  - eapply Qeq_trans; [apply Q.max_r, Qmult_le_0_compat; [apply Qlt_le_weak, Hx | exact Hc]|].
    apply Qmult_comp; [symmetry; apply Q.max_r, Qlt_le_weak, Hx | reflexivity].
  - eapply Qeq_trans.
    + apply Q.max_l. eapply Qle_trans; [apply Qmult_le_compat_r; [exact Hx | exact Hc]|].
      rewrite Qmult_0_l. apply Qle_refl.
    + eapply Qeq_trans; [|apply Qmult_comp; [symmetry; apply Q.max_l, Hx | reflexivity]].
      rewrite Qmult_0_l. reflexivity.
Qed.

(** The water and electricity sums of [calculate_guest_impact] are the
    spec-side usage and guest totals. *)
Lemma metrics_at_usage (d : bundle) (h : string) hwater helec (m : date) :
  select_col (water d) h = Ok hwater ->
  select_col (electricity d) h = Ok helec ->
  forall p, col_sum_at hwater (Some p) = usage_in (water d) h p /\
            col_sum_at helec (Some p) = usage_in (electricity d) h p /\
            sleepers_at (hotel_occupancy d h) (Some p) = guests_in d h p.
Proof.
  intros Hwa Hel p.
  apply select_col_ok in Hwa as [_ ->]. apply select_col_ok in Hel as [_ ->].
  split; [|split]; [apply col_sum_at_usage | apply col_sum_at_usage | apply sleepers_at_guests].
Qed.

(** ** Guest impact metrics *)

Lemma saving_terms (d : bundle) (h : string) hwater helec (m : date)
  (Hv : waste_months_valid d) (Hs : sleepers_nonneg d) (Hm : latest_month d = Some m)
  (Hwa : select_col (water d) h = Ok hwater)
  (Hel : select_col (electricity d) h = Ok helec) :
  let hocc := hotel_occupancy d h in
  let prev := Some (sub_years 1 m) in
  let cur := Some m in
  (per_guest_val (col_sum_at hwater prev) (sleepers_at hocc prev)
   - per_guest_val (col_sum_at hwater cur) (sleepers_at hocc cur) =
   spec_per_guest (usage_in (water d) h (twelve_months_before m))
                  (guests_in d h (twelve_months_before m))
   - spec_per_guest (usage_in (water d) h m) (guests_in d h m))%Q /\
  (per_guest_val (col_sum_at helec prev) (sleepers_at hocc prev)
   - per_guest_val (col_sum_at helec cur) (sleepers_at hocc cur) =
   spec_per_guest (usage_in (electricity d) h (twelve_months_before m))
                  (guests_in d h (twelve_months_before m))
   - spec_per_guest (usage_in (electricity d) h m) (guests_in d h m))%Q.
Proof.
  cbv zeta. unfold twelve_months_before.
  rewrite <- sub_years_1_eq_sub_months_12 by (eapply latest_month_in_range; eauto).
  destruct (metrics_at_usage d h hwater helec m Hwa Hel m) as (E1 & E2 & E3).
  destruct (metrics_at_usage d h hwater helec m Hwa Hel (sub_years 1 m)) as (E4 & E5 & E6).
  rewrite E1, E2, E3, E4, E5, E6.
  rewrite !per_guest_val_spec by (apply guests_in_nonneg, Hs).
  split; reflexivity.
Qed.

(** C1. Water saved per guest: for a loaded bundle (waste Months are
    calendar dates, Sleepers are counts), whenever [calculate_guest_impact]
    returns, its water metric equals
    max(0, prevYearWaterPerGuest - currentWaterPerGuest), where a
    per-guest value is the hotel's total water usage in the month divided
    by its total Sleepers in that month (0 when there are none), the
    current month is the latest month and the previous one lies exactly
    twelve months earlier. *)
Theorem water_saved_matches_spec (ts_ok : date -> bool) (d : bundle) (h : string) (r : metrics)
  (Hv : waste_months_valid d) (Hs : sleepers_nonneg d)
  (Hok : calculate_guest_impact ts_ok d h = Ok r) :
  exists m, latest_month d = Some m /\ (water_saved r == spec_saving (water d) d h m)%Q.
Proof.
  apply calculate_guest_impact_ok in Hok as (hwater & helec & m & Hwa & Hel & Hm & ->).
  exists m. split; [exact Hm|].
  destruct (saving_terms d h hwater helec m Hv Hs Hm Hwa Hel) as [E _].
  unfold metrics_at, spec_saving. cbn [water_saved]. rewrite E.
  apply py_max0_some.
Qed.

(** The spec's example: 1000 units over 100 guests against 1200 over 100
    a year before saves 2 per guest. *)
Lemma water_saved_matches_spec_witness :
  exists r, calculate_guest_impact pandas2_range ex_bundle "Camden"%string = Ok r /\
    (water_saved r == 2)%Q /\
    exists m, latest_month ex_bundle = Some m /\
      (water_saved r == spec_saving (water ex_bundle) ex_bundle "Camden"%string m)%Q.
Proof.
  eexists. split; [reflexivity|]. split; [vm_compute; reflexivity|].
  apply (water_saved_matches_spec pandas2_range ex_bundle "Camden"%string);
    [forall_rows | forall_rows | reflexivity].
Defined.

(** C2. CO2 prevented per guest: under the same conditions, the CO2
    metric equals max(0, prevYearEnergyPerGuest - currentEnergyPerGuest)
    times 0.233, the per-guest values built from electricity usage and
    Sleepers as for water. *)
Theorem co2_saved_matches_spec (ts_ok : date -> bool) (d : bundle) (h : string) (r : metrics)
  (Hv : waste_months_valid d) (Hs : sleepers_nonneg d)
  (Hok : calculate_guest_impact ts_ok d h = Ok r) :
  exists m, latest_month d = Some m /\
    (co2_saved r == spec_saving (electricity d) d h m * (233 # 1000))%Q.
Proof.
  apply calculate_guest_impact_ok in Hok as (hwater & helec & m & Hwa & Hel & Hm & ->).
  exists m. split; [exact Hm|].
  destruct (saving_terms d h hwater helec m Hv Hs Hm Hwa Hel) as [_ E].
  unfold metrics_at, spec_saving. cbn [co2_saved]. rewrite E.
  apply max0_scale. compute. discriminate.
Qed.

(** The spec's example: a drop of 10 units per guest (3000 over 100
    against 2000 over 100) prevents 10 * 0.233 = 2.33. *)
Lemma co2_saved_matches_spec_witness :
  exists r, calculate_guest_impact pandas2_range ex_bundle "Camden"%string = Ok r /\
    (co2_saved r == 233 # 100)%Q /\
    exists m, latest_month ex_bundle = Some m /\
      (co2_saved r == spec_saving (electricity ex_bundle) ex_bundle "Camden"%string m
                      * (233 # 1000))%Q.
Proof.
  eexists. split; [reflexivity|]. split; [vm_compute; reflexivity|].
  apply (co2_saved_matches_spec pandas2_range ex_bundle "Camden"%string);
    [forall_rows | forall_rows | reflexivity].
Defined.

Lemma filter_filter {A : Type} (p q : A -> bool) (l : list A) :
  filter p (filter q l) = filter (fun x => q x && p x) l.
Proof.
  induction l as [|x t IH]; [reflexivity|]. simpl.
  destruct (q x); simpl; [destruct (p x); simpl; [f_equal|]|]; exact IH.
Qed.

Lemma waste_mean_at_rows (f : waste_row -> pyfloat) (d : bundle) (h : string) (m : date) :
  waste_mean_at f (hotel_waste d h) (Some m) = mean_of (present (map f (waste_rows_in d h m))).
Proof.
  unfold waste_mean_at, hotel_waste, waste_rows_in. rewrite filter_filter.
  unfold nanmean. destruct (present _); reflexivity.
Qed.

Lemma mean_of_nonneg (vs : list Q) :
  Forall (fun q => 0 <= q)%Q vs -> vs <> [] -> nonneg_f (mean_of vs).
Proof.
  intros Hf Hne. destruct vs as [|v vs']; [congruence|].
  cbn [mean_of nonneg_f]. apply Qle_shift_div_l.
  - unfold Qlt. simpl. lia.
  - rewrite Qmult_0_l. clear Hne. induction Hf as [|x l Hx _ IH]; [apply Qle_refl|].
    simpl. apply Qle_trans with (0 + 0)%Q; [compute; discriminate|].
    apply Qplus_le_compat; assumption.
Qed.

(** C3. Zero guests: the per-guest expression of [calculate_guest_impact]
    ([usage / occ if occ > 0 else 0]) is 0 whenever the Sleepers total of
    the period is 0, never divides by zero, and the calculation never
    fails with a division by zero. *)
Theorem per_guest_zero_guests :
  (forall usage occ : Q, (occ == 0)%Q -> per_guest usage occ = Ok 0%Q) /\
  (forall usage occ : Q, exists v, per_guest usage occ = Ok v) /\
  (forall ts_ok d h msg, calculate_guest_impact ts_ok d h = Err msg ->
                         msg <> "ZeroDivisionError"%string).
Proof.
  split; [|split].
  - intros u o Ho. rewrite per_guest_ok. unfold per_guest_val.
    destruct (q_gt o 0) eqn:E; [|reflexivity].
    apply q_gt_true in E. rewrite Ho in E. exfalso. exact (Qlt_irrefl 0 E).
  - intros u o. rewrite per_guest_ok. eauto.
  - intros ts_ok d h msg. rewrite calculate_guest_impact_eq.
    destruct (select_col (water d) h) eqn:Ew; [|unfold select_col in Ew].
    + destruct (select_col (electricity d) h) eqn:Ee; [|unfold select_col in Ee].
      * destruct (latest_month d); [destruct (_ && _); [discriminate|]|];
          intro H; injection H as <-; discriminate.
      * destruct (existsb _ _) in Ee; [discriminate|].
        intro H. injection H as <-. injection Ee as <-. discriminate.
    + destruct (existsb _ _) in Ew; [discriminate|].
      intro H. injection H as <-. injection Ew as <-. discriminate.
Qed.

(** C4 as stated fails: when the selected hotel has no waste row for the
    latest month, the recycling rate is the mean of nothing, NaN, and
    [NaN >= 0] is false. *)
Lemma guest_metrics_nonneg_counterexample :
  ~ (forall d h r, calculate_guest_impact pandas2_range d h = Ok r ->
       (0 <= water_saved r)%Q /\ (0 <= co2_saved r)%Q /\ nonneg_f (recycling_rate r) /\
       (0 <= recycling_target r)%Q /\ (0 <= food_saved r)%Q).
Proof.
  intro H.
  destruct (H ex_two_hotels "Westin"%string _ eq_refl) as (_ & _ & Hr & _).
  vm_compute in Hr. exact Hr.
Qed.

(** C4 amended. Whenever [calculate_guest_impact] returns, the water, CO2
    and food-waste metrics are never negative and the target is 0.50.
    The recycling rate is not clamped: it is the mean of the hotel's
    Recycling Rates of the latest month; it is NaN when none of them is
    present, and non-negative when at least one is present and all of
    them are non-negative. *)
Theorem guest_metrics_nonneg (ts_ok : date -> bool) (d : bundle) (h : string) (r : metrics)
  (Hok : calculate_guest_impact ts_ok d h = Ok r) :
  (0 <= water_saved r)%Q /\ (0 <= co2_saved r)%Q /\ (0 <= food_saved r)%Q /\
  recycling_target r = 50 # 100 /\
  exists m, latest_month d = Some m /\
    recycling_rate r = mean_of (present (map w_recycling (waste_rows_in d h m))) /\
    (present (map w_recycling (waste_rows_in d h m)) = [] -> recycling_rate r = None) /\
    (Forall (fun q => 0 <= q)%Q (present (map w_recycling (waste_rows_in d h m))) ->
     present (map w_recycling (waste_rows_in d h m)) <> [] ->
     nonneg_f (recycling_rate r)).
Proof.
  apply calculate_guest_impact_ok in Hok as (hwater & helec & m & Hwa & Hel & Hm & ->).
  unfold metrics_at; cbn [water_saved co2_saved food_saved recycling_target recycling_rate].
  split; [apply py_max0_nonneg|]. split; [apply py_max0_nonneg|].
  split; [apply py_max0_nonneg|]. split; [reflexivity|].
  exists m. split; [exact Hm|]. rewrite waste_mean_at_rows.
  split; [reflexivity|]. split; [intros ->; reflexivity|]. apply mean_of_nonneg.
Qed.

(** A negative Recycling Rate is passed through: Camden's -0.1 gives a
    recycling rate of -0.1. *)
Lemma guest_metrics_nonneg_witness :
  exists r, calculate_guest_impact pandas2_range ex_negative_rate "Camden"%string = Ok r /\
    pyfloat_eqv (recycling_rate r) (Some ((-1) # 10)) /\
    (0 <= water_saved r)%Q /\ (0 <= co2_saved r)%Q /\ (0 <= food_saved r)%Q /\
    recycling_target r = 50 # 100 /\
    exists m, latest_month ex_negative_rate = Some m /\
      recycling_rate r =
        mean_of (present (map w_recycling (waste_rows_in ex_negative_rate "Camden"%string m))) /\
      (present (map w_recycling (waste_rows_in ex_negative_rate "Camden"%string m)) = [] ->
       recycling_rate r = None) /\
      (Forall (fun q => 0 <= q)%Q
         (present (map w_recycling (waste_rows_in ex_negative_rate "Camden"%string m))) ->
       present (map w_recycling (waste_rows_in ex_negative_rate "Camden"%string m)) <> [] ->
       nonneg_f (recycling_rate r)).
Proof.
  eexists. split; [reflexivity|]. split; [vm_compute; reflexivity|].
  apply (guest_metrics_nonneg pandas2_range ex_negative_rate "Camden"%string). reflexivity.
Defined.

(** C5. Recycling rate: whenever [calculate_guest_impact] returns, its
    recycling rate is exactly the arithmetic mean of the hotel's Recycling
    Rates in the latest month (NaN when there is none), unclamped, and the
    target returned with it is 0.50. *)
Theorem recycling_rate_is_mean (ts_ok : date -> bool) (d : bundle) (h : string) (r : metrics)
  (Hok : calculate_guest_impact ts_ok d h = Ok r) :
  exists m, latest_month d = Some m /\
    recycling_rate r = mean_of (present (map w_recycling (waste_rows_in d h m))) /\
    recycling_target r = 50 # 100.
Proof.
  apply calculate_guest_impact_ok in Hok as (hwater & helec & m & Hwa & Hel & Hm & ->).
  exists m. split; [exact Hm|]. split; [|reflexivity].
  apply waste_mean_at_rows.
Qed.

(** The mean is passed through as it is: a latest-month rate of 0.45
    gives 0.45. *)
Lemma recycling_rate_is_mean_witness :
  exists r, calculate_guest_impact pandas2_range ex_bundle "Camden"%string = Ok r /\
    recycling_rate r = Some (45 # 100) /\
    exists m, latest_month ex_bundle = Some m /\
      recycling_rate r = mean_of (present (map w_recycling (waste_rows_in ex_bundle "Camden"%string m))) /\
      recycling_target r = 50 # 100.
Proof.
  eexists. split; [reflexivity|]. split; [vm_compute; reflexivity|].
  apply (recycling_rate_is_mean pandas2_range ex_bundle "Camden"%string). reflexivity.
Defined.

(** C6. Food waste reduction: for a loaded bundle (waste Months are
    calendar dates), whenever [calculate_guest_impact] returns, its food
    metric is max(0, mean Food Waste of the calendar month before the
    latest month - mean Food Waste of the latest month): month over month. *)
Theorem food_saved_month_over_month (ts_ok : date -> bool) (d : bundle) (h : string) (r : metrics)
  (Hv : waste_months_valid d) (Hok : calculate_guest_impact ts_ok d h = Ok r) :
  exists m, latest_month d = Some m /\ (food_saved r == spec_food_reduction d h m)%Q.
Proof.
  apply calculate_guest_impact_ok in Hok as (hwater & helec & m & Hwa & Hel & Hm & ->).
  exists m. split; [exact Hm|].
  unfold metrics_at; cbn [food_saved].
  rewrite sub_months_1_eq_month_before by (eapply latest_month_in_range; eauto).
  rewrite !waste_mean_at_rows. unfold spec_food_reduction.
  destruct (mean_of (present (map w_food (waste_rows_in d h (month_before m))))) as [p|];
    destruct (mean_of (present (map w_food (waste_rows_in d h m)))) as [c|];
    cbn [fsub]; try reflexivity.
  apply py_max0_some.
Qed.

(** December's 4 against January's 3 gives a reduction of 1. *)
Lemma food_saved_month_over_month_witness :
  exists r, calculate_guest_impact pandas2_range ex_bundle "Camden"%string = Ok r /\
    (food_saved r == 1)%Q /\
    exists m, latest_month ex_bundle = Some m /\
      (food_saved r == spec_food_reduction ex_bundle "Camden"%string m)%Q.
Proof.
  eexists. split; [reflexivity|]. split; [vm_compute; reflexivity|].
  apply (food_saved_month_over_month pandas2_range ex_bundle "Camden"%string); [forall_rows | reflexivity].
Defined.

(** C7. Latest reporting month: whenever [calculate_guest_impact] returns,
    the month it uses for every current-period lookup and for the label is
    the maximum Month of the waste frame, whatever the electricity, water
    and occupancy frames contain. *)
Theorem latest_month_from_waste (ts_ok : date -> bool) (d : bundle) (h : string) (r : metrics)
  (Hok : calculate_guest_impact ts_ok d h = Ok r) :
  exists m, latest_month d = Some m /\
    In (Some m) (map w_month (waste d)) /\
    (forall x, In (Some x) (map w_month (waste d)) -> date_leb x m = true) /\
    (forall el wa oc, latest_month (mkBundle (waste d) el wa oc) = Some m) /\
    month_label r = (month_name (month m), year m) /\
    exists hwater helec, r = metrics_at d h hwater helec m.
Proof.
  apply calculate_guest_impact_ok in Hok as (hwater & helec & m & Hwa & Hel & Hm & ->).
  exists m. split; [exact Hm|].
  split; [apply series_max_in, Hm|].
  split; [intros x Hx; eapply series_max_ge; eauto|].
  split; [intros; exact Hm|].
  split; [reflexivity|]. eauto.
Qed.

Lemma latest_month_from_waste_witness :
  exists r, calculate_guest_impact pandas2_range ex_bundle "Camden"%string = Ok r /\
    month_label r = ("January"%string, 2024) /\
    exists m, latest_month ex_bundle = Some m /\
      In (Some m) (map w_month (waste ex_bundle)) /\
      (forall x, In (Some x) (map w_month (waste ex_bundle)) -> date_leb x m = true) /\
      (forall el wa oc, latest_month (mkBundle (waste ex_bundle) el wa oc) = Some m) /\
      month_label r = (month_name (month m), year m) /\
      exists hwater helec, r = metrics_at ex_bundle "Camden"%string hwater helec m.
Proof.
  eexists. split; [reflexivity|]. split; [reflexivity|].
  apply (latest_month_from_waste pandas2_range ex_bundle "Camden"%string). reflexivity.
Defined.

(** ** Failures of the calculation *)

Lemma existsb_false_filter {A : Type} (p : A -> bool) (l : list A) :
  existsb p l = false -> filter p l = [].
Proof.
  induction l as [|x t IH]; [reflexivity|]. simpl.
  destruct (p x); [discriminate|]. exact IH.
Qed.

Lemma usage_in_absent (t : wide_table) (h : string) (m : date) :
  has_row t m = false -> usage_in t h m = 0%Q.
Proof.
  intro H. unfold usage_in. rewrite (existsb_false_filter _ _ H). reflexivity.
Qed.

Lemma guests_in_absent (d : bundle) (h : string) (m : date) :
  has_occ_row d h m = false -> guests_in d h m = 0%Q.
Proof.
  intro H. unfold guests_in. rewrite (existsb_false_filter _ _ H). reflexivity.
Qed.

Lemma per_guest_val_zero_usage (o : Q) : (per_guest_val 0 o == 0)%Q.
Proof.
  unfold per_guest_val. destruct (q_gt o 0); [|reflexivity].
  unfold Qdiv. apply Qmult_0_l.
Qed.

Lemma per_guest_val_no_guests (u : Q) : per_guest_val u 0 = 0%Q.
Proof. reflexivity. Qed.

Lemma per_guest_val_nonneg (u o : Q) : (0 <= u)%Q -> (0 <= per_guest_val u o)%Q.
Proof.
  intro Hu. unfold per_guest_val. destruct (q_gt o 0) eqn:E; [|apply Qle_refl].
  apply q_gt_true in E. apply Qle_shift_div_l; [exact E|]. rewrite Qmult_0_l. exact Hu.
Qed.

Lemma py_max0_nonpos (x : Q) : (x <= 0)%Q -> py_max0 (Some x) = 0%Q.
Proof.
  intro Hx. simpl. destruct (q_gt x 0) eqn:E; [|reflexivity].
  apply q_gt_true in E. exfalso. exact (Qlt_not_le _ _ E Hx).
Qed.

Lemma calculate_ok_at (ts_ok : date -> bool) (d : bundle) (h : string) (m : date) :
  latest_month d = Some m -> In h (t_cols (water d)) -> In h (t_cols (electricity d)) ->
  ts_ok (sub_years 1 m) = true -> ts_ok (sub_months 1 m) = true ->
  calculate_guest_impact ts_ok d h =
  Ok (metrics_at d h (map (fun r => (r_month r, cell h r)) (t_rows (water d)))
                     (map (fun r => (r_month r, cell h r)) (t_rows (electricity d))) m).
Proof.
  intros Hm Hwa Hel Hy Hmo. rewrite calculate_guest_impact_eq.
  rewrite (proj2 (select_col_ok _ _ _) (conj Hwa eq_refl)),
          (proj2 (select_col_ok _ _ _) (conj Hel eq_refl)), Hm, Hy, Hmo.
  reflexivity.
Qed.

(** The recycling bar of [show_guest_display] on a result whose target is
    0.50: [st.progress] accepts it exactly when the rate is a
    non-negative number, and raises on NaN or a negative rate. *)
Lemma recycling_progress_cases (v : pyfloat) :
  match st_progress (py_min (fdiv v target_rate) 1%Q) with
  | Ok _ => nonneg_f v
  | Err _ => match v with Some q => (q < 0)%Q | None => True end
  end.
Proof.
  destruct v as [q|]; [|exact I].
  unfold fdiv, py_min, st_progress, target_rate, nonneg_f; cbn [option_map].
  assert (Hd : (q / (50 # 100) == 2 * q)%Q) by field.
  destruct (q_gt (q / (50 # 100)) 1) eqn:E.
  - apply q_gt_true in E. rewrite Hd in E. cbn. lra.
  - destruct (Qle_bool 0 (q / (50 # 100))) eqn:E1; cbn [andb].
    + apply Qle_bool_iff in E1. apply q_gt_false in E.
      rewrite (proj2 (Qle_bool_iff _ _) E). rewrite Hd in E1. lra.
    + assert (Hn : ~ (0 <= q / (50 # 100))%Q) by (rewrite <- Qle_bool_iff; congruence).
      rewrite Hd in Hn. lra.
Qed.

Lemma waste_mean_at_absent (f : waste_row -> pyfloat) (d : bundle) (h : string) (p : date) :
  waste_rows_in d h p = [] -> waste_mean_at f (hotel_waste d h) (Some p) = None.
Proof. intro H. rewrite waste_mean_at_rows, H. reflexivity. Qed.

(** C8 as stated fails: a month missing from the water frame (here the
    one twelve months before the latest) is no failure; the calculation
    returns a bundle. *)
Lemma calculate_failure_counterexample :
  ~ (forall d h m, latest_month d = Some m ->
       has_row (water d) (twelve_months_before m) = false ->
       exists e, calculate_guest_impact pandas2_range d h = Err e).
Proof.
  intro H.
  destruct (H ex_no_prev_water "Camden"%string jan24 eq_refl eq_refl) as [e He].
  vm_compute in He. discriminate.
Qed.

(** C8 amended. [calculate_guest_impact] either returns the whole result
    (five metrics and the month label) or reports an error and returns
    nothing. It fails exactly when the waste frame has no Month, the
    hotel has no column in the water or electricity frame, or the latest
    month minus one year or minus one month is outside the Timestamp
    range (OutOfBoundsDatetime). A month missing from a frame is no
    failure: its sums are 0 and its means NaN. The page then shows a load
    error, a calculation error, or the dashboard; but after a successful
    calculation the recycling bar raises, once the impact cards are
    drawn, when the recycling rate is NaN or negative. *)
Theorem calculate_fails_exactly (ts_ok : date -> bool) (h : string) :
  (forall d, (exists e, calculate_guest_impact ts_ok d h = Err e) <->
     latest_month d = None \/ ~ In h (t_cols (water d)) \/
     ~ In h (t_cols (electricity d)) \/
     exists m, latest_month d = Some m /\
       (ts_ok (sub_years 1 m) = false \/ ts_ok (sub_months 1 m) = false)) /\
  (forall d r, calculate_guest_impact ts_ok d h = Ok r ->
     exists hwater helec m,
       select_col (water d) h = Ok hwater /\ select_col (electricity d) h = Ok helec /\
       latest_month d = Some m /\ r = metrics_at d h hwater helec m /\
       (forall p, has_row (water d) p = false -> col_sum_at hwater (Some p) = 0%Q) /\
       (forall p, has_row (electricity d) p = false -> col_sum_at helec (Some p) = 0%Q) /\
       (forall p, has_occ_row d h p = false ->
          sleepers_at (hotel_occupancy d h) (Some p) = 0%Q) /\
       (forall p f, waste_rows_in d h p = [] ->
          waste_mean_at f (hotel_waste d h) (Some p) = None)) /\
  (forall csv pf fs,
     match show_guest_display ts_ok csv pf fs h with
     | LoadFailed e => load_data ts_ok csv pf fs = Err e
     | CalcFailed e =>
         exists d, load_data ts_ok csv pf fs = Ok d /\ calculate_guest_impact ts_ok d h = Err e
     | PageCrashed h' r _ =>
         h' = h /\ exists d, load_data ts_ok csv pf fs = Ok d /\
           calculate_guest_impact ts_ok d h = Ok r /\
           match recycling_rate r with Some q => (q < 0)%Q | None => True end
     | Dashboard h' r =>
         h' = h /\ exists d, load_data ts_ok csv pf fs = Ok d /\
           calculate_guest_impact ts_ok d h = Ok r /\ nonneg_f (recycling_rate r)
     end).
Proof.
  split; [|split].
  - intro d. split.
    + intros [e He]. destruct (latest_month d) as [m|] eqn:Hm; [|left; reflexivity].
      right. destruct (in_dec String.string_dec h (t_cols (water d))) as [Hwa|Hwa];
        [|left; exact Hwa].
      right. destruct (in_dec String.string_dec h (t_cols (electricity d))) as [Hel|Hel];
        [|left; exact Hel].
      right. exists m. split; [reflexivity|].
      destruct (ts_ok (sub_years 1 m)) eqn:Hy; [|left; reflexivity].
      destruct (ts_ok (sub_months 1 m)) eqn:Hmo; [|right; reflexivity].
      rewrite (calculate_ok_at ts_ok d h m Hm Hwa Hel Hy Hmo) in He. discriminate.
    + intro Hc. rewrite calculate_guest_impact_eq.
      destruct (select_col (water d) h) as [hw|e] eqn:Ew; [|eauto].
      destruct (select_col (electricity d) h) as [he|e] eqn:Ee; [|eauto].
      destruct (latest_month d) as [m|] eqn:Hm; [|eauto].
      apply select_col_ok in Ew as [Ew _]. apply select_col_ok in Ee as [Ee _].
      destruct Hc as [Hc|[Hc|[Hc|(m' & Hm' & Hc)]]];
        [discriminate | contradiction | contradiction|].
      injection Hm' as <-.
      destruct Hc as [Hc|Hc]; rewrite Hc; [|rewrite andb_false_r]; cbn [andb]; eauto.
  - intros d r Hr.
    apply calculate_guest_impact_ok in Hr as (hwater & helec & m & Hwa & Hel & Hm & ->).
    exists hwater, helec, m.
    pose proof Hwa as Hwa'. pose proof Hel as Hel'.
    apply select_col_ok in Hwa' as [_ ->]. apply select_col_ok in Hel' as [_ ->].
    split; [exact Hwa|]. split; [exact Hel|]. split; [exact Hm|]. split; [reflexivity|].
    split; [intros p Hp; rewrite col_sum_at_usage; apply usage_in_absent, Hp|].
    split; [intros p Hp; rewrite col_sum_at_usage; apply usage_in_absent, Hp|].
    split; [intros p Hp; rewrite sleepers_at_guests; apply guests_in_absent, Hp|].
    intros p f Hp. apply waste_mean_at_absent, Hp.
  - intros csv pf fs. unfold show_guest_display.
    destruct (load_data ts_ok csv pf fs) as [d|e] eqn:Hl; [|reflexivity].
    destruct (calculate_guest_impact ts_ok d h) as [r|e] eqn:Hc; [|eauto].
    pose proof (calculate_guest_impact_ok ts_ok d h r Hc) as (hw & he & m & _ & _ & _ & Hr).
    assert (Ht : recycling_target r = target_rate) by (rewrite Hr; reflexivity).
    pose proof (recycling_progress_cases (recycling_rate r)) as Hp. rewrite <- Ht in Hp.
    destruct (st_progress _); eauto.
Qed.

(** Under pandas 2 a latest month of January 1678 fails, a year before it
    being out of range; pandas 3 computes the result. *)
Lemma ex_1678_out_of_bounds :
  calculate_guest_impact pandas2_range ex_1678 "Camden"%string =
    Err "OutOfBoundsDatetime: Out of bounds timestamp"%string /\
  exists r, calculate_guest_impact pandas3_range ex_1678 "Camden"%string = Ok r.
Proof. split; [reflexivity | eexists; reflexivity]. Qed.

(** ** Months missing from a frame *)

(** C10 as stated fails: with the latest month missing from the water
    frame, the current water per guest is 0 and the saving is the whole
    prior-year figure, 1200 / 100 = 12, not 0. *)
Lemma missing_month_saving_counterexample :
  ~ (forall d h m, latest_month d = Some m ->
       In h (t_cols (water d)) -> In h (t_cols (electricity d)) ->
       (has_row (water d) m = false \/ has_row (water d) (twelve_months_before m) = false) ->
       exists r, calculate_guest_impact pandas2_range d h = Ok r /\ (water_saved r == 0)%Q).
Proof.
  intro H.
  destruct (H ex_no_current_water "Camden"%string jan24 eq_refl
              (or_introl eq_refl) (or_introl eq_refl) (or_introl eq_refl)) as [r [Hr Hw]].
  vm_compute in Hr. injection Hr as <-. vm_compute in Hw. discriminate.
Qed.

(** C10 amended. When the waste frame has a latest month whose year and
    month before are in the Timestamp range, and the hotel has a water
    and an electricity column, a month missing from the water,
    electricity or occupancy frame never makes the calculation fail: the
    sum over the empty selection is 0 and so is that per-guest value. If
    the missing month is the one twelve months before the latest, the
    saving it feeds is 0 (for non-negative current usage); if it is the
    latest month itself (water, electricity or occupancy), the saving is
    the prior-year per-guest value, clamped at 0. *)
Theorem missing_month_no_failure (ts_ok : date -> bool) (d : bundle) (h : string) (m : date)
  (Hv : waste_months_valid d) (Hm : latest_month d = Some m)
  (Hwa : In h (t_cols (water d))) (Hel : In h (t_cols (electricity d)))
  (Hy : ts_ok (sub_years 1 m) = true) (Hmo : ts_ok (sub_months 1 m) = true) :
  exists r, calculate_guest_impact ts_ok d h = Ok r /\
    (forall p, has_row (water d) p = false ->
       usage_in (water d) h p = 0%Q /\
       forall g, (per_guest_val (usage_in (water d) h p) g == 0)%Q) /\
    (forall p, has_row (electricity d) p = false ->
       usage_in (electricity d) h p = 0%Q /\
       forall g, (per_guest_val (usage_in (electricity d) h p) g == 0)%Q) /\
    (forall p, has_occ_row d h p = false ->
       guests_in d h p = 0%Q /\ forall u, per_guest_val u (guests_in d h p) = 0%Q) /\
    (has_row (water d) (twelve_months_before m) = false ->
     (0 <= usage_in (water d) h m)%Q -> water_saved r = 0%Q) /\
    (has_row (electricity d) (twelve_months_before m) = false ->
     (0 <= usage_in (electricity d) h m)%Q -> co2_saved r = 0%Q) /\
    (has_occ_row d h (twelve_months_before m) = false ->
     (0 <= usage_in (water d) h m)%Q -> (0 <= usage_in (electricity d) h m)%Q ->
     water_saved r = 0%Q /\ co2_saved r = 0%Q) /\
    (has_row (water d) m = false ->
     (water_saved r ==
      Qmax 0 (per_guest_val (usage_in (water d) h (twelve_months_before m))
                            (guests_in d h (twelve_months_before m))))%Q) /\
    (has_row (electricity d) m = false ->
     (co2_saved r ==
      Qmax 0 (per_guest_val (usage_in (electricity d) h (twelve_months_before m))
                            (guests_in d h (twelve_months_before m)))
      * (233 # 1000))%Q) /\
    (has_occ_row d h m = false ->
     (water_saved r ==
      Qmax 0 (per_guest_val (usage_in (water d) h (twelve_months_before m))
                            (guests_in d h (twelve_months_before m))))%Q /\
     (co2_saved r ==
      Qmax 0 (per_guest_val (usage_in (electricity d) h (twelve_months_before m))
                            (guests_in d h (twelve_months_before m)))
      * (233 # 1000))%Q).
Proof.
  eexists. split; [apply (calculate_ok_at ts_ok d h m Hm Hwa Hel Hy Hmo)|].
  assert (Hp : sub_years 1 m = twelve_months_before m)
    by (apply sub_years_1_eq_sub_months_12; eapply latest_month_in_range; eauto).
  split; [intros p Hr; rewrite (usage_in_absent _ h _ Hr);
          split; [reflexivity | intro; apply per_guest_val_zero_usage]|].
  split; [intros p Hr; rewrite (usage_in_absent _ h _ Hr);
          split; [reflexivity | intro; apply per_guest_val_zero_usage]|].
  split; [intros p Ho; rewrite (guests_in_absent _ h _ Ho);
          split; [reflexivity | intro; apply per_guest_val_no_guests]|].
  unfold metrics_at; cbn [water_saved co2_saved]. rewrite Hp.
  rewrite !col_sum_at_usage, !sleepers_at_guests.
  set (P := twelve_months_before m).
  split; [|split; [|split; [|split; [|split]]]].
  - intros Hr Hu. rewrite (usage_in_absent _ h _ Hr). apply py_max0_nonpos.
    pose proof (per_guest_val_zero_usage (guests_in d h P)).
    pose proof (per_guest_val_nonneg _ (guests_in d h m) Hu). lra.
  - intros Hr Hu. rewrite (usage_in_absent _ h _ Hr). apply py_max0_nonpos.
    pose proof (per_guest_val_zero_usage (guests_in d h P)).
    pose proof (per_guest_val_nonneg _ (guests_in d h m) Hu). unfold co2_factor. lra.
  - intros Ho Hu1 Hu2. rewrite (guests_in_absent _ h _ Ho), !per_guest_val_no_guests.
    pose proof (per_guest_val_nonneg _ (guests_in d h m) Hu1).
    pose proof (per_guest_val_nonneg _ (guests_in d h m) Hu2).
    split; apply py_max0_nonpos; unfold co2_factor; lra.
  - intro Hr. rewrite (usage_in_absent _ h _ Hr).
    eapply Qeq_trans; [apply py_max0_some|]. apply Q.max_compat; [reflexivity|].
    pose proof (per_guest_val_zero_usage (guests_in d h m)). lra.
  - intro Hr. rewrite (usage_in_absent _ h _ Hr).
    eapply Qeq_trans; [apply max0_scale; compute; discriminate|].
    refine (Qmult_comp _ _ _ _ _ _); [|reflexivity]. apply Q.max_compat; [reflexivity|].
    pose proof (per_guest_val_zero_usage (guests_in d h m)). lra.
  - intro Ho. rewrite (guests_in_absent _ h _ Ho), !per_guest_val_no_guests. split.
    + eapply Qeq_trans; [apply py_max0_some|]. apply Q.max_compat; [reflexivity|]. lra.
    + eapply Qeq_trans; [apply max0_scale; compute; discriminate|].
      refine (Qmult_comp _ _ _ _ _ _); [|reflexivity]. apply Q.max_compat; [reflexivity|].
      lra.
Qed.

(** Camden has no occupancy row for January 2024: its water saving is the
    whole prior-year 1200 / 100 = 12, its CO2 saving 3000 / 100 * 0.233. *)
Lemma missing_month_no_failure_witness :
  (exists r, calculate_guest_impact pandas2_range ex_no_current_occ "Camden"%string = Ok r /\
             (water_saved r == 12)%Q /\ (co2_saved r == 30 * (233 # 1000))%Q) /\
  exists r, calculate_guest_impact pandas2_range ex_no_current_occ "Camden"%string = Ok r /\
    (forall p, has_row (water ex_no_current_occ) p = false ->
       usage_in (water ex_no_current_occ) "Camden"%string p = 0%Q /\
       forall g, (per_guest_val (usage_in (water ex_no_current_occ) "Camden"%string p) g == 0)%Q) /\
    (forall p, has_row (electricity ex_no_current_occ) p = false ->
       usage_in (electricity ex_no_current_occ) "Camden"%string p = 0%Q /\
       forall g, (per_guest_val (usage_in (electricity ex_no_current_occ) "Camden"%string p) g
                  == 0)%Q) /\
    (forall p, has_occ_row ex_no_current_occ "Camden"%string p = false ->
       guests_in ex_no_current_occ "Camden"%string p = 0%Q /\
       forall u, per_guest_val u (guests_in ex_no_current_occ "Camden"%string p) = 0%Q) /\
    (has_row (water ex_no_current_occ) (twelve_months_before jan24) = false ->
     (0 <= usage_in (water ex_no_current_occ) "Camden"%string jan24)%Q -> water_saved r = 0%Q) /\
    (has_row (electricity ex_no_current_occ) (twelve_months_before jan24) = false ->
     (0 <= usage_in (electricity ex_no_current_occ) "Camden"%string jan24)%Q ->
     co2_saved r = 0%Q) /\
    (has_occ_row ex_no_current_occ "Camden"%string (twelve_months_before jan24) = false ->
     (0 <= usage_in (water ex_no_current_occ) "Camden"%string jan24)%Q ->
     (0 <= usage_in (electricity ex_no_current_occ) "Camden"%string jan24)%Q ->
     water_saved r = 0%Q /\ co2_saved r = 0%Q) /\
    (has_row (water ex_no_current_occ) jan24 = false ->
     (water_saved r ==
      Qmax 0 (per_guest_val (usage_in (water ex_no_current_occ) "Camden"%string
                               (twelve_months_before jan24))
                            (guests_in ex_no_current_occ "Camden"%string
                               (twelve_months_before jan24))))%Q) /\
    (has_row (electricity ex_no_current_occ) jan24 = false ->
     (co2_saved r ==
      Qmax 0 (per_guest_val (usage_in (electricity ex_no_current_occ) "Camden"%string
                               (twelve_months_before jan24))
                            (guests_in ex_no_current_occ "Camden"%string
                               (twelve_months_before jan24)))
      * (233 # 1000))%Q) /\
    (has_occ_row ex_no_current_occ "Camden"%string jan24 = false ->
     (water_saved r ==
      Qmax 0 (per_guest_val (usage_in (water ex_no_current_occ) "Camden"%string
                               (twelve_months_before jan24))
                            (guests_in ex_no_current_occ "Camden"%string
                               (twelve_months_before jan24))))%Q /\
     (co2_saved r ==
      Qmax 0 (per_guest_val (usage_in (electricity ex_no_current_occ) "Camden"%string
                               (twelve_months_before jan24))
                            (guests_in ex_no_current_occ "Camden"%string
                               (twelve_months_before jan24)))
      * (233 # 1000))%Q).
Proof.
  split; [eexists; split; [reflexivity | split; vm_compute; reflexivity]|].
  apply (missing_month_no_failure pandas2_range ex_no_current_occ "Camden"%string jan24);
    [forall_rows | reflexivity | left; reflexivity | left; reflexivity
    | reflexivity | reflexivity].
Defined.

(** ** Loading *)

Lemma map_res_Forall2 {A B : Type} (f : A -> result B) (l : list A) (ys : list B) :
  map_res f l = Ok ys -> Forall2 (fun x y => f x = Ok y) l ys.
Proof.
  revert ys. induction l as [|x t IH]; intros ys; simpl.
  - intro H. injection H as <-. constructor.
  - destruct (f x) as [y|e] eqn:Ef; [|discriminate]. cbn [bind].
    destruct (map_res f t) as [ys'|e] eqn:Et; [|discriminate]. cbn [bind].
    intro H. injection H as <-. constructor; auto.
Qed.


Lemma to_datetime_ok (ts_ok : date -> bool) (c : option string) (v : option date) :
  to_datetime ts_ok c = Ok v -> v = parse_cell ts_ok c.
Proof.
  destruct c as [s|]; simpl; [|congruence].
  destruct (parse_dmy s) as [x|]; [|discriminate].
  destruct (ts_ok x); congruence.
Qed.


Lemma convert_rate_ok (pf : string -> option pyfloat) (c : option string) (v : pyfloat) :
  convert_rate pf c = Ok v -> v = rate_value pf c.
Proof.
  destruct c as [s|]; simpl; [|congruence].
  destruct (pf (rstrip_pct s)); congruence.
Qed.



Lemma convert_rates_ok_iff (csv : list string -> bool) (pf : string -> option pyfloat)
  (oc : list raw_occ_row) (rs : list pyfloat) :
  convert_rates csv pf oc = Ok rs <->
  rate_column_is_text csv oc = true /\ map_res (fun r => convert_rate pf (ro_rate r)) oc = Ok rs.
Proof.
  unfold convert_rates. destruct (rate_column_is_text csv oc).
  - split; [auto | intros [_ H]; exact H].
  - split; [discriminate | intros [H _]; discriminate].
Qed.


Lemma Forall2_map_eq {A B C : Type} (P : A -> B -> Prop) (f : A -> C) (g : B -> C)
  (l : list A) (ys : list B) :
  (forall x y, P x y -> g y = f x) -> Forall2 P l ys -> map g ys = map f l.
Proof.
  intros HP H. induction H as [|x y l' ys' Hxy _ IH]; [reflexivity|].
  simpl. rewrite (HP _ _ Hxy), IH. reflexivity.
Qed.

Section Convert.
Variable ts_ok : date -> bool.




Lemma convert_wide_row_ok (x : raw_wide_row) (y : wide_row) :
  convert_wide_row ts_ok x = Ok y -> r_month y = parse_cell ts_ok (rr_month x).
Proof.
  unfold convert_wide_row.
  destruct (to_datetime ts_ok (rr_month x)) as [m|] eqn:Em; cbn [bind]; [|discriminate].
  intro H. injection H as <-. apply to_datetime_ok, Em.
Qed.

Lemma convert_waste_row_ok (x : raw_waste_row) (y : waste_row) :
  convert_waste_row ts_ok x = Ok y ->
  w_month y = parse_cell ts_ok (rw_month x) /\ w_hotel y = rw_hotel x.
Proof.
  unfold convert_waste_row.
  destruct (to_datetime ts_ok (rw_month x)) as [m|] eqn:Em; cbn [bind]; [|discriminate].
  intro H. injection H as <-. split; [apply to_datetime_ok, Em | reflexivity].
Qed.

Lemma convert_wide_ok (t : raw_wide) (t' : wide_table) :
  convert_wide ts_ok t = Ok t' ->
  map r_month (t_rows t') = map (fun r => parse_cell ts_ok (rr_month r)) (rt_rows t).
Proof.
  unfold convert_wide.
  destruct (map_res (convert_wide_row ts_ok) (rt_rows t)) as [rows|e] eqn:E;
    cbn [bind]; [|discriminate].
  intro H. injection H as <-. simpl.
  exact (Forall2_map_eq _ _ _ _ _ convert_wide_row_ok (map_res_Forall2 _ _ _ E)).
Qed.

Lemma occ_rows_fields (pf : string -> option pyfloat) (oc : list raw_occ_row) ms rs :
  Forall2 (fun r m => convert_occ_month ts_ok r = Ok m) oc ms ->
  Forall2 (fun r q => convert_rate pf (ro_rate r) = Ok q) oc rs ->
  map o_month (occ_rows oc ms rs) = map (fun r => parse_cell ts_ok (ro_month r)) oc /\
  map o_rate (occ_rows oc ms rs) = map (fun r => rate_value pf (ro_rate r)) oc /\
  map o_hotel (occ_rows oc ms rs) = map ro_hotel oc.
Proof.
  intro H1. revert rs. induction H1 as [|r m oc' ms' Hm _ IH]; intros rs H2.
  - inversion H2; subst. repeat split.
  - inversion H2 as [|? q ? rs' Hq H2']; subst.
    destruct (IH rs' H2') as (E1 & E2 & E3).
    unfold occ_rows in *. simpl. rewrite E1, E2, E3.
    rewrite (to_datetime_ok _ _ _ Hm), (convert_rate_ok _ _ _ Hq). repeat split.
Qed.

Lemma load_data_ok_inv (csv : list string -> bool) (pf : string -> option pyfloat)
  (fs : files) (b : bundle) :
  load_data ts_ok csv pf fs = Ok b ->
  exists wr el wa oc ws el' wa' ms rs,
    f_waste fs = Table wr /\ f_elec fs = Table el /\ f_water fs = Table wa /\
    f_occ fs = Table oc /\
    map_res (convert_waste_row ts_ok) wr = Ok ws /\ convert_wide ts_ok el = Ok el' /\
    convert_wide ts_ok wa = Ok wa' /\ map_res (convert_occ_month ts_ok) oc = Ok ms /\
    convert_rates csv pf oc = Ok rs /\
    b = mkBundle ws el' wa' (occ_rows oc ms rs).
Proof.
  unfold load_data, read_csv. intro Hb.
  destruct (f_waste fs) as [| |wr] eqn:Hw; cbn [bind] in Hb; try discriminate.
  destruct (f_elec fs) as [| |el] eqn:He; cbn [bind] in Hb; try discriminate.
  destruct (f_water fs) as [| |wa] eqn:Hwa; cbn [bind] in Hb; try discriminate.
  destruct (f_occ fs) as [| |oc] eqn:Ho; cbn [bind] in Hb; try discriminate.
  destruct (map_res (convert_waste_row ts_ok) wr) as [ws|] eqn:E1; cbn [bind] in Hb;
    [|discriminate].
  destruct (convert_wide ts_ok el) as [el'|] eqn:E2; cbn [bind] in Hb; [|discriminate].
  destruct (convert_wide ts_ok wa) as [wa'|] eqn:E3; cbn [bind] in Hb; [|discriminate].
  destruct (map_res (convert_occ_month ts_ok) oc) as [ms|] eqn:E4; cbn [bind] in Hb;
    [|discriminate].
  destruct (convert_rates csv pf oc) as [rs|] eqn:E5; cbn [bind] in Hb; [|discriminate].
  injection Hb as <-. exists wr, el, wa, oc, ws, el', wa', ms, rs.
  repeat split; first [assumption | reflexivity].
Qed.

End Convert.



(** A numeric Occupancy Rate column ("80" without '%') makes the [.str]
    accessor raise; the same file with "80%" loads. *)
Lemma load_data_numeric_rate :
  load_data pandas2_range text_unless_numeric decimal_float fs_numeric_rate =
    Err "AttributeError: Can only use .str accessor with string values!"%string /\
  exists b, load_data pandas2_range text_unless_numeric decimal_float
              (mkFiles (f_waste fs_numeric_rate) (f_elec fs_numeric_rate)
                       (f_water fs_numeric_rate) (f_occ fs_empty_month)) = Ok b.
Proof. split; [vm_compute; reflexivity | eexists; vm_compute; reflexivity]. Qed.


(** ** The hotel selector *)

Lemma unique_from_in (seen l : list string) (x : string) :
  In x (unique_from seen l) <-> In x l /\ ~ In x seen.
Proof.
  revert seen. induction l as [|y t IH]; intros seen; simpl.
  - tauto.
  - destruct (existsb (String.eqb y) seen) eqn:E.
    + rewrite IH. apply existsb_exists in E as [z [Hz Hyz]].
      apply String.eqb_eq in Hyz. subst z.
      split; [tauto|]. intros [[<-|Ht] Hn]; [contradiction | tauto].
    + simpl. rewrite IH. simpl.
      assert (~ In y seen) as Hy.
      { intro Hin. assert (existsb (String.eqb y) seen = true) as E'
          by (apply existsb_exists; exists y; split; [exact Hin | apply String.eqb_refl]).
        congruence. }
      split.
      * intros [<-|[Ht Hn]]; [tauto | split; [right; exact Ht | tauto]].
      * intros [[<-|Ht] Hn]; [left; reflexivity|].
        destruct (String.eqb_spec y x) as [<-|Hne]; [left; reflexivity|].
        right. split; [exact Ht|]. intros [Heq|Hs]; [congruence | contradiction].
Qed.

Lemma unique_from_nodup (seen l : list string) : NoDup (unique_from seen l).
Proof.
  revert seen. induction l as [|y t IH]; intros seen; simpl; [constructor|].
  destruct (existsb (String.eqb y) seen); [apply IH|].
  constructor; [|apply IH].
  rewrite unique_from_in. intros [_ Hn]. apply Hn. left. reflexivity.
Qed.

Lemma insert_sorted_perm (x : string) (l : list string) :
  Permutation (insert_sorted x l) (x :: l).
Proof.
  induction l as [|y t IH]; simpl; [reflexivity|].
  destruct (String.leb x y); [reflexivity|].
  rewrite IH. apply perm_swap.
Qed.

Lemma py_sorted_perm (l : list string) : Permutation (py_sorted l) l.
Proof.
  induction l as [|x t IH]; simpl; [reflexivity|].
  rewrite insert_sorted_perm. apply perm_skip, IH.
Qed.

Lemma leb_false_flip (a b : string) : String.leb a b = false -> String.leb b a = true.
Proof.
  intro H. destruct (String.leb_total a b); congruence.
Qed.

Lemma insert_sorted_sorted (x : string) (l : list string) :
  Sorted (fun a b => String.leb a b = true) l ->
  Sorted (fun a b => String.leb a b = true) (insert_sorted x l).
Proof.
  induction l as [|y t IH]; intros Hs; simpl.
  - repeat constructor.
  - destruct (String.leb x y) eqn:E.
    + constructor; [exact Hs | constructor; exact E].
    + apply Sorted_inv in Hs as [Ht Hh]. constructor; [apply IH, Ht|].
      destruct t as [|z t']; simpl.
      * constructor. apply leb_false_flip, E.
      * inversion Hh; subst. destruct (String.leb x z); constructor;
          [apply leb_false_flip, E | assumption].
Qed.

Lemma py_sorted_sorted (l : list string) :
  Sorted (fun a b => String.leb a b = true) (py_sorted l).
Proof.
  induction l as [|x t IH]; simpl; [constructor|].
  apply insert_sorted_sorted, IH.
Qed.

Lemma leb_neq_ltb (a b : string) :
  String.leb a b = true -> a <> b -> String.ltb a b = true.
Proof.
  unfold String.leb, String.ltb. intros H Hne.
  destruct (String.compare a b) eqn:E; try reflexivity; [|discriminate].
  apply String.compare_eq_iff in E. contradiction.
Qed.

Lemma sorted_nodup_strict (l : list string) :
  Sorted (fun a b => String.leb a b = true) l -> NoDup l ->
  Sorted (fun a b => String.ltb a b = true) l.
Proof.
  induction l as [|x t IH]; intros Hs Hn; [constructor|].
  apply Sorted_inv in Hs as [Ht Hh]. inversion Hn as [|? ? Hx Hn']; subst.
  constructor; [apply IH; assumption|].
  destruct t as [|y t']; constructor. inversion Hh; subst.
  apply leb_neq_ltb; [assumption|]. intros <-. apply Hx. left. reflexivity.
Qed.

(** The hotel selector lists each hotel of the waste frame once, in
    increasing string order, and nothing else. *)
Theorem hotel_options_sorted_unique (d : bundle) :
  Sorted (fun a b => String.ltb a b = true) (hotel_options d) /\
  NoDup (hotel_options d) /\
  (forall h, In h (hotel_options d) <-> exists r, In r (waste d) /\ w_hotel r = h).
Proof.
  unfold hotel_options, series_unique.
  assert (NoDup (py_sorted (unique_from [] (map w_hotel (waste d))))) as Hn.
  { eapply Permutation_NoDup; [symmetry; apply py_sorted_perm | apply unique_from_nodup]. }
  split; [apply sorted_nodup_strict; [apply py_sorted_sorted | exact Hn]|].
  split; [exact Hn|].
  intro h. split.
  - intro Hin. eapply Permutation_in in Hin; [|apply py_sorted_perm].
    apply unique_from_in in Hin as [Hin _]. apply in_map_iff in Hin as [r [Hr Hin]].
    eauto.
  - intros [r [Hin Hr]]. eapply Permutation_in; [symmetry; apply py_sorted_perm|].
    apply unique_from_in. split; [|intros []].
    apply in_map_iff. eauto.
Qed.

(** ** The dashboard figures *)

Lemma calculate_target (ts_ok : date -> bool) (d : bundle) (h : string) (r : metrics) :
  calculate_guest_impact ts_ok d h = Ok r -> recycling_target r = target_rate.
Proof.
  intro H. apply calculate_guest_impact_ok in H as (hw & he & m & _ & _ & _ & ->).
  reflexivity.
Qed.

(** The recycling bar: the value passed to [st.progress] is NaN exactly
    when the hotel has no recycling rate for the latest month; otherwise
    it is at most 1, equals rate / 0.5 up to the cap, is full exactly when
    the rate reaches the 50% target, and is non-negative exactly when the
    rate is. *)
Theorem recycling_bar_capped (ts_ok : date -> bool) (d : bundle) (h : string) (r : metrics) :
  calculate_guest_impact ts_ok d h = Ok r ->
  (recycling_rate r = None -> recycling_bar (render r) = None) /\
  (forall q, recycling_rate r = Some q ->
     exists p, recycling_bar (render r) = Some p /\ (p <= 1)%Q /\
       ((q <= 1#2)%Q -> (p == 2 * q)%Q) /\
       ((p == 1)%Q <-> (1#2 <= q)%Q) /\
       ((0 <= p)%Q <-> (0 <= q)%Q)).
Proof.
  intro H. apply calculate_target in H.
  unfold render, fdiv. rewrite H. unfold target_rate.
  split; [intros ->; reflexivity|].
  intros q ->. simpl.
  assert (q / (50 # 100) == 2 * q)%Q as Hq by (field; discriminate).
  destruct (q_gt (q / (50 # 100)) 1) eqn:E; eexists; (split; [reflexivity|]).
  - apply q_gt_true in E. rewrite Hq in E.
    repeat split; intros; try lra.
  - apply q_gt_false in E. rewrite Hq in E |- *.
    repeat split; intros; lra.
Qed.

(** Every figure of the impact cards, and the equivalents derived from
    them, is non-negative. *)
Theorem dashboard_figures_nonneg (ts_ok : date -> bool) (d : bundle) (h : string) (r : metrics) :
  calculate_guest_impact ts_ok d h = Ok r ->
  (0 <= water_litres (render r))%Q /\ (0 <= drinking_days (render r))%Q /\
  (0 <= co2_kg (render r))%Q /\ (0 <= miles_not_driven (render r))%Q /\
  (0 <= food_grams (render r))%Q /\ (0 <= meals_saved (render r))%Q.
Proof.
  intro H. apply calculate_guest_impact_ok in H as (hw & he & m & _ & _ & _ & ->).
  unfold render, metrics_at. cbn [water_saved co2_saved food_saved
    water_litres drinking_days co2_kg miles_not_driven food_grams meals_saved].
  set (a := py_max0 _). set (b := py_max0 _). set (c := py_max0 _).
  assert (0 <= a)%Q by apply py_max0_nonneg.
  assert (0 <= b)%Q by apply py_max0_nonneg.
  assert (0 <= c)%Q by apply py_max0_nonneg.
  assert (a / 75 == a * (1 # 75))%Q as E1 by reflexivity.
  assert (c * 1000 / 400 == c * (1000 # 400))%Q as E2 by (field; discriminate).
  rewrite E1, E2. repeat split; lra.
Qed.

(** ** Month cells and percentages *)

Lemma is_digit_val (c : ascii) : is_digit c = true -> 0 <= digit_val c <= 9.
Proof.
  unfold is_digit, digit_val. rewrite andb_true_iff, !Nat.leb_le. lia.
Qed.

Lemma field_year_range (l : list ascii) (y : Z) :
  field_year l = Some y -> 0 <= y <= 9999.
Proof.
  unfold field_year.
  destruct l as [|a [|b [|c [|e [|? ?]]]]]; try discriminate.
  destruct (is_digit a) eqn:Ea; [|discriminate].
  destruct (is_digit b) eqn:Eb; [|discriminate].
  destruct (is_digit c) eqn:Ec; [|discriminate].
  destruct (is_digit e) eqn:Ee; [|discriminate].
  cbn [andb]. intro H.
  pose proof (f_equal (fun o => match o with Some z => z | None => 0 end) H) as Hy.
  cbv beta iota in Hy. rewrite <- Hy.
  apply is_digit_val in Ea, Eb, Ec, Ee. lia.
Qed.

Lemma parse_dmy_valid (s : string) (x : date) :
  parse_dmy s = Some x -> valid_date x = true /\ 0 <= year x <= 9999.
Proof.
  unfold parse_dmy.
  destruct (field_slash true (list_ascii_of_string s)) as [[dd r1]|]; [|discriminate].
  destruct (field_slash false r1) as [[mm r2]|]; [|discriminate].
  destruct (field_year r2) as [yy|] eqn:Ey; [|discriminate].
  destruct ((1 <=? dd) && (dd <=? 31) && (1 <=? mm) && (mm <=? 12) &&
            valid_date (mkDate yy mm dd)) eqn:E; [|discriminate].
  intro H. injection H as <-. rewrite andb_true_iff in E.
  split; [apply E | apply (field_year_range r2), Ey].
Qed.

Lemma parse_cell_month_ok (ts_ok : date -> bool) (c : option string) :
  month_ok ts_ok (parse_cell ts_ok c) = true.
Proof.
  destruct c as [s|]; [|reflexivity]. simpl.
  destruct (parse_dmy s) as [x|] eqn:E; [|reflexivity].
  destruct (ts_ok x) eqn:Ht; [|reflexivity].
  apply parse_dmy_valid in E as [Hv Hy]. cbn [month_ok].
  rewrite Hv, Ht. cbn [andb]. rewrite andb_true_iff, !Z.leb_le. lia.
Qed.

Lemma Forall_map_parse {A : Type} (ts_ok : date -> bool) (proj : A -> option string)
  (l : list A) :
  Forall (fun c => month_ok ts_ok c = true) (map (fun r => parse_cell ts_ok (proj r)) l).
Proof.
  apply Forall_forall. intros c Hc. apply in_map_iff in Hc as [r [<- _]].
  apply parse_cell_month_ok.
Qed.

Lemma Forall_of_map {A : Type} (P : option date -> Prop) (f : A -> option date) (l : list A) :
  Forall P (map f l) -> Forall (fun r => P (f r)) l.
Proof. apply Forall_map. Qed.

(** The Months of a loaded bundle are NaT or calendar dates in range. *)
Lemma load_data_bundle_months (ts_ok : date -> bool) (csv : list string -> bool)
  (pf : string -> option pyfloat) (fs : files) (b : bundle) :
  load_data ts_ok csv pf fs = Ok b -> bundle_months_ok ts_ok b.
Proof.
  intro H. apply load_data_ok_inv in H
    as (wr & el & wa & oc & ws & el' & wa' & ms & rs & _ & _ & _ & _
        & E1 & E2 & E3 & E4 & E5 & ->).
  apply convert_rates_ok_iff in E5 as [_ E5].
  unfold bundle_months_ok. cbn [waste electricity water occupancy].
  split; [|split; [|split]]; apply Forall_of_map with (P := fun c => month_ok ts_ok c = true).
  - erewrite Forall2_map_eq;
      [apply (Forall_map_parse ts_ok rw_month)| |apply map_res_Forall2, E1].
    intros x y Hxy. apply (convert_waste_row_ok ts_ok), Hxy.
  - rewrite (convert_wide_ok ts_ok _ _ E2). apply Forall_map_parse.
  - rewrite (convert_wide_ok ts_ok _ _ E3). apply Forall_map_parse.
  - rewrite (proj1 (occ_rows_fields ts_ok pf oc ms rs (map_res_Forall2 _ _ _ E4)
                      (map_res_Forall2 _ _ _ E5))).
    apply Forall_map_parse.
Qed.

(** A loaded bundle holds no Month outside the calendar: every Month
    cell of the four frames is NaT or a valid date with a four-digit year
    that the Timestamp range of the installed pandas accepts. *)
Theorem load_data_months_ok (ts_ok : date -> bool) (csv : list string -> bool)
  (pf : string -> option pyfloat) (fs : files) (b : bundle) :
  load_data ts_ok csv pf fs = Ok b -> bundle_months_ok ts_ok b.
Proof. apply load_data_bundle_months. Qed.

(** Round trip of the Month format *)

Lemma digit_char_ok (n : Z) :
  0 <= n <= 9 -> is_digit (digit_char n) = true /\ digit_val (digit_char n) = n.
Proof.
  intro H. unfold is_digit, digit_val, digit_char.
  rewrite nat_ascii_embedding by lia.
  split; [apply andb_true_iff; split; apply Nat.leb_le; lia | lia].
Qed.

Lemma digit_char_is_digit (n : Z) : 0 <= n <= 9 -> is_digit (digit_char n) = true.
Proof. intro H. apply (digit_char_ok n H). Qed.

Lemma digit_char_val (n : Z) : 0 <= n <= 9 -> digit_val (digit_char n) = n.
Proof. intro H. apply (digit_char_ok n H). Qed.

Lemma days_in_month_le (y m : Z) : days_in_month y m <= 31.
Proof.
  unfold days_in_month.
  destruct (Z.eqb m 2); [destruct (is_leap y); lia|].
  destruct (existsb (Z.eqb m) [4; 6; 9; 11]); [lia|].
  destruct ((1 <=? m) && (m <=? 12)); lia.
Qed.

Lemma parse_format_dmy (x : date) :
  valid_date x = true -> 0 <= year x <= 9999 -> parse_dmy (format_dmy x) = Some x.
Proof.
  intros Hv Hyr.
  pose proof Hv as Hv'.
  unfold valid_date in Hv'. rewrite !andb_true_iff, !Z.leb_le in Hv'.
  pose proof (days_in_month_le (year x) (month x)).
  assert (0 <= day x / 10 <= 9) as D1 by (split; [apply Z.div_pos|apply Z.div_le_upper_bound]; lia).
  assert (0 <= day x mod 10 <= 9) as D2 by (pose proof (Z.mod_pos_bound (day x) 10); lia).
  assert (0 <= month x / 10 <= 9) as M1 by (split; [apply Z.div_pos|apply Z.div_le_upper_bound]; lia).
  assert (0 <= month x mod 10 <= 9) as M2 by (pose proof (Z.mod_pos_bound (month x) 10); lia).
  assert (0 <= year x / 1000 <= 9) as Y1.
  { split; [apply Z.div_pos; lia|].
    assert (year x / 1000 < 10) by (apply Z.div_lt_upper_bound; lia). lia. }
  assert (0 <= year x / 100 mod 10 <= 9) as Y2 by (pose proof (Z.mod_pos_bound (year x / 100) 10); lia).
  assert (0 <= year x / 10 mod 10 <= 9) as Y3 by (pose proof (Z.mod_pos_bound (year x / 10) 10); lia).
  assert (0 <= year x mod 10 <= 9) as Y4 by (pose proof (Z.mod_pos_bound (year x) 10); lia).
  unfold parse_dmy, format_dmy. rewrite list_ascii_of_string_of_list_ascii.
  do 3 (cbn [field_slash field_year andb];
         rewrite ?(digit_char_is_digit (day x / 10)), ?(digit_char_is_digit (day x mod 10)),
           ?(digit_char_is_digit (month x / 10)), ?(digit_char_is_digit (month x mod 10)),
           ?(digit_char_is_digit (year x / 1000)), ?(digit_char_is_digit (year x / 100 mod 10)),
           ?(digit_char_is_digit (year x / 10 mod 10)), ?(digit_char_is_digit (year x mod 10)),
           ?(Ascii.eqb_refl "/"%char) by assumption;
         cbn [andb]).
  rewrite !digit_char_val by assumption.
  rewrite <- (Z.div_mod (day x) 10) by discriminate.
  rewrite <- (Z.div_mod (month x) 10) by discriminate.
  replace (1000 * (year x / 1000) + 100 * (year x / 100 mod 10) +
           10 * (year x / 10 mod 10) + year x mod 10) with (year x).
  2:{ pose proof (Z.div_mod (year x) 10 ltac:(discriminate)).
      pose proof (Z.div_mod (year x / 10) 10 ltac:(discriminate)).
      pose proof (Z.div_mod (year x / 100) 10 ltac:(discriminate)).
      assert (year x / 10 / 10 = year x / 100) by (rewrite Z.div_div by lia; reflexivity).
      assert (year x / 100 / 10 = year x / 1000) by (rewrite Z.div_div by lia; reflexivity).
      lia. }
  destruct x as [y m dd]. cbn [year month day] in *.
  rewrite Hv.
  replace ((1 <=? dd) && (dd <=? 31) && (1 <=? m) && (m <=? 12)) with true
    by (symmetry; rewrite !andb_true_iff, !Z.leb_le; lia).
  reflexivity.
Qed.

(** A Month cell written as [ts.strftime('%d/%m/%Y')] (zero-padded day
    and month, four-digit year) is converted by [pd.to_datetime] back to
    that date, for every calendar date with a four-digit year in the
    Timestamp range. *)
Theorem parse_dmy_format_dmy (ts_ok : date -> bool) (x : date) :
  valid_date x = true -> ts_ok x = true -> 0 <= year x <= 9999 ->
  to_datetime ts_ok (Some (format_dmy x)) = Ok (Some x).
Proof.
  intros Hv Ht Hy. cbn [to_datetime]. rewrite (parse_format_dmy x Hv Hy), Ht. reflexivity.
Qed.

(** [str.rstrip('%')] *)

Lemma list_ascii_of_string_app (s t : string) :
  list_ascii_of_string (s ++ t) = list_ascii_of_string s ++ list_ascii_of_string t.
Proof.
  induction s as [|c s IH]; simpl; [reflexivity|]. rewrite IH. reflexivity.
Qed.

Lemma string_of_list_ascii_app (a b : list ascii) :
  string_of_list_ascii (a ++ b) = (string_of_list_ascii a ++ string_of_list_ascii b)%string.
Proof.
  induction a as [|c a IH]; simpl; [reflexivity|]. rewrite IH. reflexivity.
Qed.

Lemma strip_pct_rev_spec (l : list ascii) :
  exists k, l = repeat "%"%char k ++ strip_pct_rev l /\
    forall rest, strip_pct_rev l <> "%"%char :: rest.
Proof.
  induction l as [|c t IH]; simpl.
  - exists 0%nat. split; [reflexivity | discriminate].
  - destruct (Ascii.eqb_spec c "%") as [->|Hc].
    + destruct IH as [k [Hk Hn]]. exists (S k). split; [simpl; rewrite <- Hk; reflexivity | exact Hn].
    + exists 0%nat. split; [reflexivity|]. intros rest H. injection H as ->. contradiction.
Qed.

Lemma strip_pct_rev_repeat (k : nat) (l : list ascii) :
  strip_pct_rev (repeat "%"%char k ++ l) = strip_pct_rev l.
Proof.
  induction k as [|k IH]; simpl; [reflexivity|]. exact IH.
Qed.

(** [str.rstrip('%')] removes exactly the trailing percent signs: the
    text is the stripped text followed by some number of '%', and the
    stripped text does not end in '%'. *)
Theorem rstrip_pct_spec (s : string) :
  exists k, s = (rstrip_pct s ++ pcts k)%string /\
    forall pre, rstrip_pct s <> (pre ++ "%")%string.
Proof.
  unfold rstrip_pct, pcts.
  destruct (strip_pct_rev_spec (rev (list_ascii_of_string s))) as [k [Hk Hn]].
  exists k. split.
  - rewrite <- string_of_list_ascii_app.
    rewrite <- (string_of_list_ascii_of_string s) at 1. f_equal.
    rewrite <- (rev_repeat k "%"%char), <- rev_app_distr, <- Hk, rev_involutive.
    reflexivity.
  - intros pre H. apply (f_equal list_ascii_of_string) in H.
    rewrite list_ascii_of_string_of_list_ascii, list_ascii_of_string_app in H.
    simpl in H. apply (f_equal (@rev ascii)) in H.
    rewrite rev_involutive, rev_app_distr in H. simpl in H. exact (Hn _ H).
Qed.

Lemma sleepers_at_occ_sleepers (d : bundle) (h : string) (m : option date) :
  sleepers_at (hotel_occupancy d h) m =
  nansum (map snd (filter (fun p => month_is (fst p) m) (occ_sleepers d h))).
Proof.
  unfold sleepers_at, occ_sleepers. rewrite filter_map_swap, map_map. reflexivity.
Qed.

(** The metrics of a hotel depend on nothing but the latest month of the
    whole waste frame, the hotel's own waste rows, the Month and Sleepers
    of its occupancy rows, and its two usage columns: other hotels' rows
    and columns, and the Occupancy Rate column, never change them. *)
Theorem calculate_uses_own_rows (ts_ok : date -> bool) (d d' : bundle) (h : string) :
  latest_month d = latest_month d' ->
  hotel_waste d h = hotel_waste d' h ->
  occ_sleepers d h = occ_sleepers d' h ->
  select_col (water d) h = select_col (water d') h ->
  select_col (electricity d) h = select_col (electricity d') h ->
  calculate_guest_impact ts_ok d h = calculate_guest_impact ts_ok d' h.
Proof.
  intros Hm Hw Ho Hwa Hel. rewrite !calculate_guest_impact_eq, Hm, Hwa, Hel.
  destruct (select_col (water d') h) as [hwater|]; [|reflexivity].
  destruct (select_col (electricity d') h) as [helec|]; [|reflexivity].
  destruct (latest_month d') as [m|]; [|reflexivity].
  destruct (_ && _); [|reflexivity].
  unfold metrics_at. rewrite Hw, !sleepers_at_occ_sleepers, Ho. reflexivity.
Qed.

(** A hotel with no row in the occupancy frame (its name missing from
    occ_sleepers.csv) is shown zero water and zero CO2 savings, whatever
    its meter readings. *)
Theorem no_occupancy_no_savings (ts_ok : date -> bool) (d : bundle) (h : string) (r : metrics) :
  hotel_occupancy d h = [] ->
  calculate_guest_impact ts_ok d h = Ok r ->
  water_saved r = 0%Q /\ co2_saved r = 0%Q.
Proof.
  intros Ho H. apply calculate_guest_impact_ok in H as (hw & he & m & _ & _ & _ & ->).
  unfold metrics_at. cbn [water_saved co2_saved]. rewrite Ho. split; reflexivity.
Qed.

Lemma month_name_nonempty (m : Z) : 1 <= m <= 12 -> month_name m <> ""%string.
Proof.
  intro H. assert (m = 1 \/ m = 2 \/ m = 3 \/ m = 4 \/ m = 5 \/ m = 6 \/ m = 7 \/
                   m = 8 \/ m = 9 \/ m = 10 \/ m = 11 \/ m = 12) as Hm by lia.
  repeat destruct Hm as [->|Hm]; try discriminate. subst. discriminate.
Qed.

(** On data from [load_data], the month shown in the header is an English
    month name (never the empty name of an out-of-range month) with a
    four-digit year in the Timestamp range: the latest Month of the waste
    frame. *)
Theorem loaded_month_label (ts_ok : date -> bool) (csv : list string -> bool)
  (pf : string -> option pyfloat) (fs : files) (b : bundle) (h : string) (r : metrics) :
  load_data ts_ok csv pf fs = Ok b -> calculate_guest_impact ts_ok b h = Ok r ->
  exists m, latest_month b = Some m /\ month_label r = (month_name (month m), year m) /\
    1 <= month m <= 12 /\ month_name (month m) <> ""%string /\ 0 <= year m <= 9999 /\
    ts_ok m = true.
Proof.
  intros Hl Hc. apply load_data_bundle_months in Hl as [Hw _].
  apply calculate_guest_impact_ok in Hc as (hw & he & m & _ & _ & Hm & ->).
  exists m. split; [exact Hm|]. split; [reflexivity|].
  apply series_max_in in Hm. apply in_map_iff in Hm as [row [Hr Hin]].
  apply (proj1 (Forall_forall _ _) Hw) in Hin. rewrite Hr in Hin. cbn [month_ok] in Hin.
  rewrite !andb_true_iff, !Z.leb_le in Hin. destruct Hin as [[[Hv Ht] Hlo] Hhi].
  unfold valid_date in Hv. rewrite !andb_true_iff, !Z.leb_le in Hv.
  split; [lia|]. split; [apply month_name_nonempty; lia|]. split; [lia | exact Ht].
Qed.

(** ** Instances of the properties above *)

Lemma recycling_bar_capped_witness :
  exists r, calculate_guest_impact pandas2_range ex_bundle "Camden"%string = Ok r /\
    pyfloat_eqv (recycling_bar (render r)) (Some (9 # 10)) /\
    (recycling_rate r = None -> recycling_bar (render r) = None) /\
    (forall q, recycling_rate r = Some q ->
       exists p, recycling_bar (render r) = Some p /\ (p <= 1)%Q /\
         ((q <= 1#2)%Q -> (p == 2 * q)%Q) /\
         ((p == 1)%Q <-> (1#2 <= q)%Q) /\
         ((0 <= p)%Q <-> (0 <= q)%Q)).
Proof.
  eexists. split; [reflexivity|]. split; [vm_compute; reflexivity|].
  apply (recycling_bar_capped pandas2_range ex_bundle "Camden"%string). reflexivity.
Defined.

Lemma dashboard_figures_nonneg_witness :
  exists r, calculate_guest_impact pandas2_range ex_bundle "Camden"%string = Ok r /\
    (0 <= water_litres (render r))%Q /\ (0 <= drinking_days (render r))%Q /\
    (0 <= co2_kg (render r))%Q /\ (0 <= miles_not_driven (render r))%Q /\
    (0 <= food_grams (render r))%Q /\ (0 <= meals_saved (render r))%Q.
Proof.
  eexists. split; [reflexivity|].
  apply (dashboard_figures_nonneg pandas2_range ex_bundle "Camden"%string). reflexivity.
Defined.

Lemma load_data_months_ok_witness :
  exists b, load_data pandas2_range text_unless_numeric decimal_float fs_empty_month = Ok b /\
    bundle_months_ok pandas2_range b.
Proof.
  eexists. split; [vm_compute; reflexivity|].
  apply (load_data_months_ok pandas2_range text_unless_numeric decimal_float fs_empty_month).
  vm_compute; reflexivity.
Defined.

(** 29/02/2024 under pandas 2; 01/01/1600 under pandas 3, whose range
    reaches below 1677. *)
Lemma parse_dmy_format_dmy_witness :
  format_dmy (mkDate 2024 2 29) = "29/02/2024"%string /\
  to_datetime pandas2_range (Some (format_dmy (mkDate 2024 2 29))) = Ok (Some (mkDate 2024 2 29)) /\
  format_dmy (mkDate 1600 1 1) = "01/01/1600"%string /\
  to_datetime pandas3_range (Some (format_dmy (mkDate 1600 1 1))) = Ok (Some (mkDate 1600 1 1)).
Proof.
  split; [reflexivity|]. split; [apply parse_dmy_format_dmy; first [reflexivity | cbn; lia]|].
  split; [reflexivity|]. apply parse_dmy_format_dmy; first [reflexivity | cbn; lia].
Defined.

Lemma calculate_uses_own_rows_witness :
  calculate_guest_impact pandas2_range ex_two_hotels "Camden"%string =
  calculate_guest_impact pandas2_range ex_two_hotels_other "Camden"%string.
Proof.
  apply (calculate_uses_own_rows pandas2_range ex_two_hotels ex_two_hotels_other "Camden"%string);
    reflexivity.
Defined.

Lemma no_occupancy_no_savings_witness :
  exists r, calculate_guest_impact pandas2_range ex_no_occ "Camden"%string = Ok r /\
    water_saved r = 0%Q /\ co2_saved r = 0%Q.
Proof.
  eexists. split; [reflexivity|].
  apply (no_occupancy_no_savings pandas2_range ex_no_occ "Camden"%string); reflexivity.
Defined.

(** Under pandas 3 the Month 01/01/1600 loads and labels the page
    January 1600; pandas 2 refuses it. *)
Lemma loaded_month_label_witness :
  (exists e, load_data pandas2_range text_unless_numeric decimal_float fs_1600 = Err e) /\
  exists b r, load_data pandas3_range text_unless_numeric decimal_float fs_1600 = Ok b /\
    calculate_guest_impact pandas3_range b "Camden"%string = Ok r /\
    month_label r = ("January"%string, 1600) /\
    exists m, latest_month b = Some m /\ month_label r = (month_name (month m), year m) /\
      1 <= month m <= 12 /\ month_name (month m) <> ""%string /\ 0 <= year m <= 9999 /\
      pandas3_range m = true.
Proof.
  split; [eexists; vm_compute; reflexivity|].
  do 2 eexists. split; [vm_compute; reflexivity|]. split; [vm_compute; reflexivity|].
  split; [vm_compute; reflexivity|].
  apply (loaded_month_label pandas3_range text_unless_numeric decimal_float fs_1600 _
           "Camden"%string); vm_compute; reflexivity.
Defined.
